(** * Gemini minutes generator: the client core and its export helpers

    A shallow embedding of [gemini_node.py] (the [GeminiClient] class and the
    two text-extraction helpers) and of the two pure pieces of
    [gemini_app.py] ([format_minutes_as_markdown] and the failure test of
    [main]), followed by the properties of the design document that can be
    settled on them.

    Python values are the values [json.loads] can produce.  A [str] is its
    sequence of Unicode code points.  Exceptions are values of an error
    monad; methods of [GeminiClient] run in a state-and-error monad in which
    an assignment to [self] survives a later exception, as it does in
    Python. *)

From Stdlib Require Import List NArith ZArith String Ascii Bool Lia.
From Stdlib Require Import DecimalString PrimFloat.
Import ListNotations.

Set Implicit Arguments.

(** ** Python strings *)

Module PyStr.

(** A [str] is a sequence of code points. *)
Definition pystr := list N.

(** An ASCII literal of the source. *)
Definition lit (s : string) : pystr :=
  map N_of_ascii (list_ascii_of_string s).

Fixpoint eqb (a b : pystr) : bool :=
  match a, b with
  | [], [] => true
  | x :: a', y :: b' => (x =? y)%N && eqb a' b'
  | _, _ => false
  end.

(** [bool(s)] for a [str]. *)
Definition truthy (s : pystr) : bool :=
  match s with [] => false | _ :: _ => true end.

(** [x or y] on strings. *)
Definition or_else (x y : pystr) : pystr := if truthy x then x else y.

(** [Py_UNICODE_ISSPACE]: the code points [str.strip()] removes. *)
Definition isspace (c : N) : bool :=
  (((9 <=? c) && (c <=? 13)) || ((28 <=? c) && (c <=? 32))
   || (c =? 0x85) || (c =? 0xA0) || (c =? 0x1680)
   || ((0x2000 <=? c) && (c <=? 0x200A))
   || (c =? 0x2028) || (c =? 0x2029) || (c =? 0x202F)
   || (c =? 0x205F) || (c =? 0x3000))%N.

Fixpoint lstrip (s : pystr) : pystr :=
  match s with
  | [] => []
  | c :: s' => if isspace c then lstrip s' else s
  end.

Definition rstrip (s : pystr) : pystr := rev (lstrip (rev s)).

(** [s.strip()]: the left index moves first, then the right one. *)
Definition strip (s : pystr) : pystr := rstrip (lstrip s).

(** [sep.join(xs)]. *)
Fixpoint join (sep : pystr) (xs : list pystr) : pystr :=
  match xs with
  | [] => []
  | x :: rest =>
      match rest with
      | [] => x
      | _ :: _ => x ++ sep ++ join sep rest
      end
  end.

Fixpoint startswith (p s : pystr) : bool :=
  match p, s with
  | [], _ => true
  | _ :: _, [] => false
  | a :: p', b :: s' => (a =? b)%N && startswith p' s'
  end.

(** [needle in hay] on strings. *)
Fixpoint contains (needle hay : pystr) : bool :=
  startswith needle hay
  || match hay with
     | [] => false
     | _ :: hay' => contains needle hay'
     end.

(** Lower-case hexadecimal, [width] digits. *)
Definition hex_digit (d : N) : N :=
  (if d <? 10 then 48 + d else 87 + d)%N.

Fixpoint hex (width : nat) (c : N) : pystr :=
  match width with
  | O => []
  | S w => hex w (c / 16) ++ [hex_digit (c mod 16)]
  end.

(** [str(z)] for an [int]. *)
Definition of_Z (z : Z) : pystr := lit (NilZero.string_of_int (Z.to_int z)).

End PyStr.
Import PyStr.

(** ** Exceptions *)

(** An exception is its class name and [str(e)].  Only subclasses of
    [Exception] are modelled: they are what [except Exception] catches. *)
Record exn := Exception { exn_class : string; exn_str : pystr }.

Inductive except (A : Type) : Type :=
| Ok (a : A)
| Raise (e : exn).
Arguments Ok {A} a.
Arguments Raise {A} e.

Definition bind {A B} (c : except A) (k : A -> except B) : except B :=
  match c with
  | Ok a => k a
  | Raise e => Raise e
  end.

(** [try: c  except Exception as e: h e]. *)
Definition try_except {A} (c : except A) (h : exn -> except A) : except A :=
  match c with
  | Ok a => Ok a
  | Raise e => h e
  end.

Declare Scope except_scope.
Delimit Scope except_scope with except.
Notation "x <- c ;; k" := (bind c (fun x => k))
  (at level 61, c at next level, right associativity) : except_scope.

(** ** Values decoded from JSON *)

#[warnings="-register-all"]
Inductive pyval : Type :=
| PyNone
| PyBool (b : bool)
| PyInt (z : Z)
| PyFloat (f : float)
| PyStr (s : pystr)
| PyList (l : list pyval)
| PyDict (d : list (pystr * pyval)).

(** What the interpreter supplies and the repository does not define: the
    shortest round-trip printing of a float, and the Unicode table of
    printable code points that [repr] of a [str] consults above ASCII. *)
Record Builtins := {
  float_repr : float -> pystr;
  isprintable : N -> bool
}.

Section Str.

Variable py : Builtins.

Definition repr_char (quote c : N) : pystr :=
  (if (c =? quote) || (c =? 92) then [92; c]
   else if c =? 9 then [92; 116]
   else if c =? 10 then [92; 110]
   else if c =? 13 then [92; 114]
   else if (c <? 32) || (c =? 127) then [92; 120] ++ hex 2 c
   else if c <? 127 then [c]
   else if isprintable py c then [c]
   else if c <=? 0xFF then [92; 120] ++ hex 2 c
   else if c <=? 0xFFFF then [92; 117] ++ hex 4 c
   else [92; 85] ++ hex 8 c)%N.

(** [repr(s)] for a [str]: single quotes unless the text has a single
    quote and no double quote. *)
Definition str_repr (s : pystr) : pystr :=
  let quote :=
    if existsb (N.eqb 39) s && negb (existsb (N.eqb 34) s) then 34%N
    else 39%N in
  [quote] ++ flat_map (repr_char quote) s ++ [quote].

(** [repr(v)]. *)
Fixpoint py_repr (v : pyval) : pystr :=
  match v with
  | PyNone => lit "None"
  | PyBool true => lit "True"
  | PyBool false => lit "False"
  | PyInt z => of_Z z
  | PyFloat f => float_repr py f
  | PyStr s => str_repr s
  | PyList l => lit "[" ++ join (lit ", ") (map py_repr l) ++ lit "]"
  | PyDict d =>
      lit "{"
      ++ join (lit ", ")
           (map (fun kv => str_repr (fst kv) ++ lit ": " ++ py_repr (snd kv)) d)
      ++ lit "}"
  end.

(** [str(v)]: the text itself for a [str], [repr(v)] otherwise. *)
Definition py_str (v : pyval) : pystr :=
  match v with
  | PyStr s => s
  | _ => py_repr v
  end.

End Str.

Definition type_name (v : pyval) : string :=
  match v with
  | PyNone => "NoneType"
  | PyBool _ => "bool"
  | PyInt _ => "int"
  | PyFloat _ => "float"
  | PyStr _ => "str"
  | PyList _ => "list"
  | PyDict _ => "dict"
  end.

Definition TypeError_not_iterable (v : pyval) : exn :=
  Exception "TypeError"
    (lit "'" ++ lit (type_name v) ++ lit "' object is not iterable").

(** [for p in v]: the elements of a list, the characters of a [str], the
    keys of a dict; anything else is not iterable. *)
Definition py_iter (v : pyval) : except (list pyval) :=
  match v with
  | PyList l => Ok l
  | PyStr s => Ok (map (fun c => PyStr [c]) s)
  | PyDict d => Ok (map (fun kv => PyStr (fst kv)) d)
  | _ => Raise (TypeError_not_iterable v)
  end.

(** [d.get(key, default)] on the bindings of a dict, first binding of the
    key (the keys of a Python dict are distinct). *)
Fixpoint dict_get (d : list (pystr * pyval)) (key : pystr) (default : pyval)
  : pyval :=
  match d with
  | [] => default
  | (k, v) :: d' => if eqb k key then v else dict_get d' key default
  end.

Definition AttributeError_get (v : pyval) : exn :=
  Exception "AttributeError"
    (lit "'" ++ lit (type_name v) ++ lit "' object has no attribute 'get'").

(** [minutes.get(key, default)]: only a dict has the method. *)
Definition py_get (minutes : pyval) (key : pystr) (default : pyval)
  : except pyval :=
  match minutes with
  | PyDict d => Ok (dict_get d key default)
  | _ => Raise (AttributeError_get minutes)
  end.

(** ** The record of minutes *)

Record MinutesRecord := {
  summary : pystr;
  participants : list pystr;
  discussion_points : list pystr;
  outcomes_or_decisions : list pystr;
  next_steps : list pystr
}.

Section Clean.

Variable py : Builtins.
Local Open Scope except_scope.

(** [[str(p).strip() for p in items if str(p).strip()]] once [items] is
    known to be a sequence. *)
Definition stripped (items : list pyval) : list pystr :=
  map (fun p => strip (py_str py p))
    (filter (fun p => truthy (strip (py_str py p))) items).

(** The same comprehension over the value of a field. *)
Definition stripped_items (field : pyval) : except (list pystr) :=
  items <- py_iter field ;;
  Ok (stripped items).

(** [_clean_minutes]: the five entries of the dict display are
    evaluated in the order written. *)
Definition _clean_minutes (minutes : pyval) : except MinutesRecord :=
  s <- py_get minutes (lit "summary") (PyStr []) ;;
  p <- py_get minutes (lit "participants") (PyList []) ;;
  p' <- stripped_items p ;;
  t <- py_get minutes (lit "discussion_points") (PyList []) ;;
  t' <- stripped_items t ;;
  d <- py_get minutes (lit "outcomes_or_decisions") (PyList []) ;;
  d' <- stripped_items d ;;
  n <- py_get minutes (lit "next_steps") (PyList []) ;;
  n' <- stripped_items n ;;
  Ok {| summary :=
          or_else (strip (py_str py s)) (lit "No summary available.");
        participants := p';
        discussion_points := t';
        outcomes_or_decisions := d';
        next_steps := n' |}.

End Clean.

(** [_create_fallback_minutes]. *)
Definition _create_fallback_minutes : MinutesRecord :=
  {| summary :=
       lit "Could not automatically generate minutes. Manual review required.";
     participants := [];
     discussion_points := [];
     outcomes_or_decisions := [];
     next_steps := [] |}.

(** An ASCII literal between double quotes. *)
Definition dq (s : string) : pystr := [34%N] ++ lit s ++ [34%N].

(** [_get_system_prompt]: the text of the source, line by line. *)
Definition _get_system_prompt : pystr :=
  join [10%N]
    [ lit "You are an intelligent assistant that analyzes conversations and generates a structured summary in JSON format. Your goal is to extract the most important information, focusing on clarity and factual accuracy based on the provided transcript.";
      [];
      lit "Required JSON structure:";
      lit "{";
      lit "  " ++ dq "summary" ++ lit ": "
        ++ dq "A concise, 2-4 sentence summary of the entire conversation's purpose and flow."
        ++ lit ",";
      lit "  " ++ dq "participants" ++ lit ": ["
        ++ dq "Name 1 (Role, if specified)" ++ lit ", "
        ++ dq "Name 2 (Role, if specified)" ++ lit "],";
      lit "  " ++ dq "discussion_points" ++ lit ": [";
      lit "    " ++ dq "A key topic or question that was discussed." ++ lit ",";
      lit "    " ++ dq "Another significant point of discussion.";
      lit "  ],";
      lit "  " ++ dq "outcomes_or_decisions" ++ lit ": [";
      lit "    "
        ++ dq "Any final decisions, conclusions, or results from the conversation.";
      lit "  ],";
      lit "  " ++ dq "next_steps" ++ lit ": [";
      lit "    "
        ++ dq "Any explicit mentions of future actions or follow-ups(Assignee or Assigned team).";
      lit "  ]";
      lit "}";
      [];
      lit "Rules:";
      lit "- ALWAYS output only a valid JSON object.";
      lit "- If a section has no relevant information (e.g., no decisions were made), use an empty list [].";
      lit "- Extract participant names and their roles if mentioned (e.g., "
        ++ dq "Cate (Material Science)" ++ lit ").";
      lit "- Keep summaries and points concise and directly from the transcript.";
      lit "- Do not invent or infer information not present in the text. Focus on what was actually said." ].

(** ** The libraries the client calls *)

(** [google.generativeai]: a model handle and the parts of a response the
    client reads.  Reading an attribute can raise, so each is a result. *)
Module genai.

Record GenerativeModel := {
  model_name : pystr;
  response_mime_type : pystr
}.

Record FinishReason := { name : except pystr }.

Record Candidate := {
  finish_reason : except FinishReason;
  safety_ratings : except pystr
}.

Record Response := {
  text : except pystr;
  candidates : except (list Candidate)
}.

End genai.

Module PyPDF2.
Record Page := { extract_text : except pystr }.
Record PdfReader := { pages : except (list Page) }.
End PyPDF2.

Module docx.
Record Paragraph := { text : pystr }.
Record Document := { paragraphs : except (list Paragraph) }.
End docx.

(** An uploaded file is its bytes. *)
Definition file := list Byte.byte.

(** The surroundings of one call: the process environment, and what the
    libraries and the remote endpoint answer during that call. *)
Record Env := {
  getenv : pystr -> option pystr;
  configure : pystr -> except unit;
  GenerativeModel : pystr -> pystr -> except genai.GenerativeModel;
  generate_content : genai.GenerativeModel -> pystr -> except genai.Response;
  json_loads : pystr -> except pyval;
  PdfReader : file -> except PyPDF2.PdfReader;
  Document : file -> except docx.Document
}.

(** ** The client object and its methods *)

Record GeminiClient := {
  model : option genai.GenerativeModel;
  last_error : option pystr
}.

(** A method runs on the object and on the log of prompts sent to the
    remote endpoint; both survive an exception. *)
Record Run := {
  self : GeminiClient;
  requests : list pystr
}.

Definition method (A : Type) : Type := Run -> except A * Run.

Module Method.

Definition ret {A} (a : A) : method A := fun st => (Ok a, st).

Definition raise {A} (e : exn) : method A := fun st => (Raise e, st).

Definition bind {A B} (c : method A) (k : A -> method B) : method B :=
  fun st =>
    match c st with
    | (Ok a, st') => k a st'
    | (Raise e, st') => (Raise e, st')
    end.

(** A pure computation inside a method. *)
Definition lift {A} (c : except A) : method A := fun st => (c, st).

(** [try: c  except Exception as e: h e]; the handler starts from the
    state the body left. *)
Definition try_except {A} (c : method A) (h : exn -> method A) : method A :=
  fun st =>
    match c st with
    | (Ok a, st') => (Ok a, st')
    | (Raise e, st') => h e st'
    end.

(** The outcome of a statement as a value: it tells whether the local it
    assigns got bound. *)
Definition attempt {A} (c : method A) : method (except A) :=
  fun st => let (r, st') := c st in (Ok r, st').

Definition get_model : method (option genai.GenerativeModel) :=
  fun st => (Ok (model (self st)), st).

Definition get_last_error : method (option pystr) :=
  fun st => (Ok (last_error (self st)), st).

Definition set_model (m : option genai.GenerativeModel) : method unit :=
  fun st =>
    (Ok tt, {| self := {| model := m; last_error := last_error (self st) |};
               requests := requests st |}).

Definition set_last_error (e : option pystr) : method unit :=
  fun st =>
    (Ok tt, {| self := {| model := model (self st); last_error := e |};
               requests := requests st |}).

(** [self.model.generate_content(prompt)]: one outbound request. *)
Definition call_generate_content (env : Env) (m : genai.GenerativeModel)
    (prompt : pystr) : method genai.Response :=
  fun st =>
    (generate_content env m prompt,
     {| self := self st; requests := requests st ++ [prompt] |}).

End Method.

Declare Scope method_scope.
Delimit Scope method_scope with method.
Notation "x <- c ;; k" := (Method.bind c (fun x => k))
  (at level 61, c at next level, right associativity) : method_scope.
Notation "c ;; k" := (Method.bind c (fun _ => k))
  (at level 61, right associativity) : method_scope.

(** [a or b] on optional strings: [None] and the empty string are false. *)
Definition opt_or (a b : option pystr) : option pystr :=
  match a with
  | Some (_ :: _) => a
  | _ => b
  end.

Section Client.

Variable py : Builtins.
Variable env : Env.
Local Open Scope method_scope.
Import Method.

(** [GeminiClient.__init__]: [not key] holds for [None] and for the empty
    string. *)
Definition __init__ (api_key : option pystr) : method unit :=
  set_model None ;;
  set_last_error None ;;
  try_except
    (let key := opt_or api_key (getenv env (lit "GOOGLE_API_KEY")) in
     match key with
     | Some (c :: k) =>
         lift (configure env (c :: k)) ;;
         m <- lift (GenerativeModel env (lit "gemini-1.5-flash")
                      (lit "application/json")) ;;
         set_model (Some m) ;;
         set_last_error None
     | _ =>
         set_last_error
           (Some (lit "GOOGLE_API_KEY is missing or not provided."))
     end)
    (fun e =>
       set_model None ;;
       set_last_error
         (Some (lit "Failed to configure Gemini client: " ++ exn_str e))).

(** [test_connection]: a model handle is always true as a condition. *)
Definition test_connection : method (bool * pystr) :=
  m <- get_model ;;
  match m with
  | Some _ => ret (true, lit "Gemini client configured successfully.")
  | None =>
      le <- get_last_error ;;
      ret (false,
           match le with
           | Some (c :: s) => c :: s
           | _ => lit "Client could not be initialized."
           end)
  end.

Definition UnboundLocalError_response : exn :=
  Exception "UnboundLocalError"
    (lit "cannot access local variable 'response' where it is not associated with a value").

Definition IndexError_list : exn :=
  Exception "IndexError" (lit "list index out of range").

Definition TypeError_iadd_None : exn :=
  Exception "TypeError"
    (lit "unsupported operand type(s) for +=: 'NoneType' and 'str'").

(** [response.candidates[0].finish_reason], with [response] a local that
    may be unbound. *)
Definition first_finish_reason (response : option genai.Response)
  : except genai.FinishReason :=
  match response with
  | None => Raise UnboundLocalError_response
  | Some r =>
      (cs <- genai.candidates r ;;
       match cs with
       | [] => Raise IndexError_list
       | c :: _ => genai.finish_reason c
       end)%except
  end.

Definition first_safety_ratings (response : option genai.Response)
  : except pystr :=
  match response with
  | None => Raise UnboundLocalError_response
  | Some r =>
      (cs <- genai.candidates r ;;
       match cs with
       | [] => Raise IndexError_list
       | c :: _ => genai.safety_ratings c
       end)%except
  end.

(** [self.last_error += rhs]: the old value is read, the right-hand side
    evaluated, the sum stored. *)
Definition iadd_last_error (rhs : except pystr) : method unit :=
  old <- get_last_error ;;
  x <- lift rhs ;;
  match old with
  | Some s => set_last_error (Some (s ++ x))
  | None => raise TypeError_iadd_None
  end.

(** The inner [try] of the handler, without its [except]. *)
Definition diagnostics (response : option genai.Response) : method unit :=
  _ <- lift (first_finish_reason response) ;;
  iadd_last_error
    (fr <- first_finish_reason response ;;
     n <- genai.name fr ;;
     Ok (lit " | Finish Reason: " ++ n))%except ;;
  iadd_last_error
    (sr <- first_safety_ratings response ;;
     Ok (lit " | Safety Ratings: " ++ sr))%except.

Definition full_prompt (transcript : pystr) : pystr :=
  _get_system_prompt
  ++ [10%N; 10%N]
  ++ lit "Analyze this meeting transcript and generate the JSON output:"
  ++ [10%N; 10%N]
  ++ transcript.

(** [generate_meeting_minutes]. *)
Definition generate_meeting_minutes (transcript : pystr)
  : method MinutesRecord :=
  m <- get_model ;;
  match m with
  | None => ret _create_fallback_minutes
  | Some handle =>
      called <- attempt
                  (call_generate_content env handle (full_prompt transcript)) ;;
      let response :=
        match called with Ok r => Some r | Raise _ => None end in
      try_except
        (r <- lift called ;;
         body <- lift (genai.text r) ;;
         minutes <- lift (json_loads env body) ;;
         lift (_clean_minutes py minutes))
        (fun e =>
           set_last_error (Some (lit "API call failed: " ++ exn_str e)) ;;
           try_except (diagnostics response) (fun _ => ret tt) ;;
           ret _create_fallback_minutes)
  end.

End Client.

(** ** The file helpers *)

Section Extract.

Variable env : Env.
Local Open Scope except_scope.

(** The generator [page.extract_text() for page in pages if
    page.extract_text()]: the method is called for the test and again
    for the value. *)
Fixpoint page_texts (pages : list PyPDF2.Page) : except (list pystr) :=
  match pages with
  | [] => Ok []
  | page :: rest =>
      c <- PyPDF2.extract_text page ;;
      if truthy c then
        t <- PyPDF2.extract_text page ;;
        ts <- page_texts rest ;;
        Ok (t :: ts)
      else page_texts rest
  end.

Definition extract_text_from_pdf (f : file) : except pystr :=
  try_except
    (reader <- PdfReader env f ;;
     ps <- PyPDF2.pages reader ;;
     ts <- page_texts ps ;;
     Ok (join [10%N; 10%N] ts))
    (fun _ => Ok []).

Definition extract_text_from_docx (f : file) : except pystr :=
  try_except
    (doc <- Document env f ;;
     ps <- docx.paragraphs doc ;;
     Ok (join [10%N]
           (map docx.text
              (filter (fun p => truthy (strip (docx.text p))) ps))))
    (fun _ => Ok []).

End Extract.

(** ** The export and the failure test of the front end *)

Definition bullets (items : list pystr) : pystr :=
  join [10%N] (map (fun p => lit "- " ++ p) items).

(** The list [sections] of [format_minutes_as_markdown]: header and
    content, in the order written.  The argument is a record built by the
    client, which has its five keys, so the defaults of [get] are not
    reached. *)
Definition sections (minutes : MinutesRecord) : list (pystr * pystr) :=
  [ (lit "## " ++ [0x2728%N] ++ lit " Summary", summary minutes);
    (lit "## " ++ [0x1F465%N] ++ lit " Participants",
     bullets (participants minutes));
    (lit "## " ++ [0x1F5E3%N; 0xFE0F%N] ++ lit " Discussion Points",
     bullets (discussion_points minutes));
    (lit "## " ++ [0x2705%N] ++ lit " Outcomes or Decisions",
     bullets (outcomes_or_decisions minutes));
    (lit "## " ++ [0x1F680%N] ++ lit " Next Steps",
     bullets (next_steps minutes)) ].

Definition format_minutes_as_markdown (minutes : MinutesRecord) : pystr :=
  join [10%N; 10%N]
    (map (fun hc => fst hc ++ [10%N] ++ snd hc)
       (filter (fun hc => truthy (snd hc)) (sections minutes))).

(** The test of [main] after a generation: true on the branch that reports
    a failure. *)
Definition generation_failed (minutes : MinutesRecord) : bool :=
  contains (lit "Could not automatically generate minutes") (summary minutes).


(** ** Vocabulary of the properties *)

(** The four list fields: key in the decoded object, field of the record. *)
Definition list_fields : list (pystr * (MinutesRecord -> list pystr)) :=
  [ (lit "participants", participants);
    (lit "discussion_points", discussion_points);
    (lit "outcomes_or_decisions", outcomes_or_decisions);
    (lit "next_steps", next_steps) ].

(** The values a [for] loop accepts. *)
Definition iterable (v : pyval) : bool :=
  match v with
  | PyList _ | PyStr _ | PyDict _ => true
  | _ => false
  end.

(** Every list field of the object is missing or iterable. *)
Definition list_fields_iterable (d : list (pystr * pyval)) : bool :=
  forallb (fun f => iterable (dict_get d (fst f) (PyList []))) list_fields.

(** The key has no binding in the object. *)
Definition missing (d : list (pystr * pyval)) (key : pystr) : Prop :=
  forall v, In (key, v) d -> False.

(** The run after one more request. *)
Definition sent (st : Run) (prompt : pystr) : Run :=
  {| self := self st; requests := requests st ++ [prompt] |}.

(** The run after [self.last_error = msg]. *)
Definition with_last_error (st : Run) (msg : pystr) : Run :=
  {| self := {| model := model (self st); last_error := Some msg |};
     requests := requests st |}.

(** What the [try] block of [generate_meeting_minutes] computes once the
    request was sent: the answer of the endpoint, its text, the decoded
    object, the cleaned record; the first exception wins. *)
Definition attempt_outcome (py : Builtins) (env : Env)
    (handle : genai.GenerativeModel) (transcript : pystr)
  : except MinutesRecord :=
  (r <- generate_content env handle (full_prompt transcript) ;;
   body <- genai.text r ;;
   minutes <- json_loads env body ;;
   _clean_minutes py minutes)%except.

(** The ways the remote call or the decoding of its answer fail. *)
Inductive call_fails (py : Builtins) (env : Env)
    (handle : genai.GenerativeModel) (transcript : pystr) (e : exn) : Prop :=
| call_raises :
    generate_content env handle (full_prompt transcript) = Raise e ->
    call_fails py env handle transcript e
| answer_blocked r :
    generate_content env handle (full_prompt transcript) = Ok r ->
    genai.text r = Raise e ->
    call_fails py env handle transcript e
| body_not_json r body :
    generate_content env handle (full_prompt transcript) = Ok r ->
    genai.text r = Ok body ->
    json_loads env body = Raise e ->
    call_fails py env handle transcript e
| object_not_cleaned r body minutes :
    generate_content env handle (full_prompt transcript) = Ok r ->
    genai.text r = Ok body ->
    json_loads env body = Ok minutes ->
    _clean_minutes py minutes = Raise e ->
    call_fails py env handle transcript e.

(** The sections the export keeps of a list of header and content, each
    as its text. *)
Definition render (hc : pystr * pystr) : pystr := fst hc ++ [10%N] ++ snd hc.

Definition emitted (l : list (pystr * pystr)) : list pystr :=
  map render (filter (fun hc => truthy (snd hc)) l).

(** The design document's cleaning of a list: stringify each element,
    trim, drop the empty ones, keep the order. *)
Definition spec_clean_list (py : Builtins) (items : list pyval) : list pystr :=
  flat_map
    (fun p =>
       match strip (py_str py p) with
       | [] => []
       | c :: s => [c :: s]
       end)
    items.

(** The design document's export, field by field: a section per non-empty
    field, header line first. *)
Definition spec_prose (header body : pystr) : list pystr :=
  match body with
  | [] => []
  | _ :: _ => [header ++ [10%N] ++ body]
  end.

Definition spec_list (header : pystr) (items : list pystr) : list pystr :=
  match items with
  | [] => []
  | _ :: _ =>
      [header ++ [10%N] ++ join [10%N] (map (fun i => lit "- " ++ i) items)]
  end.

Definition spec_markdown (r : MinutesRecord) : pystr :=
  join [10%N; 10%N]
    (spec_prose (lit "## " ++ [0x2728%N] ++ lit " Summary") (summary r)
     ++ spec_list (lit "## " ++ [0x1F465%N] ++ lit " Participants")
          (participants r)
     ++ spec_list (lit "## " ++ [0x1F5E3%N; 0xFE0F%N] ++ lit " Discussion Points")
          (discussion_points r)
     ++ spec_list (lit "## " ++ [0x2705%N] ++ lit " Outcomes or Decisions")
          (outcomes_or_decisions r)
     ++ spec_list (lit "## " ++ [0x1F680%N] ++ lit " Next Steps")
          (next_steps r)).

(** The text of every page, or the first exception. *)
Fixpoint all_page_texts (pages : list PyPDF2.Page) : except (list pystr) :=
  match pages with
  | [] => Ok []
  | page :: rest =>
      (t <- PyPDF2.extract_text page ;;
       ts <- all_page_texts rest ;;
       Ok (t :: ts))%except
  end.

(** A value without floats whose texts are ASCII: its [str] consults
    neither field of [Builtins]. *)
Definition ascii_text (s : pystr) : bool := forallb (fun c => c <? 128)%N s.

Fixpoint plain (v : pyval) : bool :=
  match v with
  | PyNone | PyBool _ | PyInt _ => true
  | PyFloat _ => false
  | PyStr s => ascii_text s
  | PyList l => forallb plain l
  | PyDict d => forallb (fun kv => ascii_text (fst kv) && plain (snd kv)) d
  end.

(** ** Scenarios

    Closed surroundings on which the model is evaluated.  Their data are
    [plain], so the choice of [plain_builtins] does not show in any result
    (lemma [py_str_plain]). *)

Definition plain_builtins : Builtins :=
  {| float_repr := fun _ => lit "nan";
     isprintable := fun _ => false |}.

Definition flash : genai.GenerativeModel :=
  {| genai.model_name := lit "gemini-1.5-flash";
     genai.response_mime_type := lit "application/json" |}.

Definition unreachable : exn :=
  Exception "ConnectionError" (lit "network is unreachable").

(** No key in the environment and no network. *)
Definition offline : Env :=
  {| getenv := fun _ => None;
     configure := fun _ => Ok tt;
     GenerativeModel := fun n m =>
       Ok {| genai.model_name := n; genai.response_mime_type := m |};
     generate_content := fun _ _ => Raise unreachable;
     json_loads := fun _ =>
       Raise (Exception "JSONDecodeError" (lit "Expecting value"));
     PdfReader := fun _ =>
       Raise (Exception "PdfReadError" (lit "EOF marker not found"));
     Document := fun _ =>
       Raise (Exception "PackageNotFoundError" (lit "Package not found")) |}.

(** The endpoint answers with [body], which the decoder reads as
    [decoded]. *)
Definition answers (body : pystr) (decoded : pyval) : Env :=
  {| getenv := fun _ => Some (lit "key");
     configure := fun _ => Ok tt;
     GenerativeModel := fun n m =>
       Ok {| genai.model_name := n; genai.response_mime_type := m |};
     generate_content := fun _ _ =>
       Ok {| genai.text := Ok body; genai.candidates := Ok [] |};
     json_loads := fun b =>
       if eqb b body then Ok decoded
       else Raise (Exception "JSONDecodeError" (lit "Expecting value"));
     PdfReader := fun _ =>
       Raise (Exception "PdfReadError" (lit "EOF marker not found"));
     Document := fun _ =>
       Raise (Exception "PackageNotFoundError" (lit "Package not found")) |}.

Definition configured : Run :=
  {| self := {| model := Some flash; last_error := None |}; requests := [] |}.

Definition unconfigured : Run :=
  {| self := {| model := None;
                last_error :=
                  Some (lit "GOOGLE_API_KEY is missing or not provided.") |};
     requests := [] |}.

(** The second example of the design document, with a key the client does
    not know and a number where a list of texts is expected. *)
Definition q3_object : list (pystr * pyval) :=
  [ (lit "summary", PyStr (lit "  Team aligned on Q3 plan.  "));
    (lit "participants",
     PyList [PyStr (lit "  Ana (PM)  "); PyStr []; PyStr (lit "Leo")]);
    (lit "next_steps", PyList [PyInt 42; PyNone; PyStr (lit "   ")]);
    (lit "mood", PyBool true) ].

Definition q3_record : MinutesRecord :=
  {| summary := lit "Team aligned on Q3 plan.";
     participants := [lit "Ana (PM)"; lit "Leo"];
     discussion_points := [];
     outcomes_or_decisions := [];
     next_steps := [lit "42"; lit "None"] |}.

(** An object whose summary and first participant are null. *)
Definition null_object : list (pystr * pyval) :=
  [ (lit "summary", PyNone);
    (lit "participants", PyList [PyNone; PyStr (lit "Leo")]) ].

Definition null_record : MinutesRecord :=
  {| summary := lit "None";
     participants := [lit "None"; lit "Leo"];
     discussion_points := [];
     outcomes_or_decisions := [];
     next_steps := [] |}.

(** An answer whose summary quotes the first words of the fallback text. *)
Definition quoting_summary : pystr :=
  lit "The old tool printed: Could not automatically generate minutes.".

Definition quoting_body : pystr :=
  lit "{" ++ dq "summary" ++ lit ": "
  ++ [34%N] ++ quoting_summary ++ [34%N] ++ lit "}".

Definition quoting_object : pyval :=
  PyDict [(lit "summary", PyStr quoting_summary)].

Definition quoting_record : MinutesRecord :=
  {| summary := quoting_summary;
     participants := [];
     discussion_points := [];
     outcomes_or_decisions := [];
     next_steps := [] |}.

Definition empty_record : MinutesRecord :=
  {| summary := lit "No summary available.";
     participants := [];
     discussion_points := [];
     outcomes_or_decisions := [];
     next_steps := [] |}.


(** ** The rest of the front end

    The three steps of [main] around the client: the checks before any
    input is read, the choice of the transcript, and the body of the
    generate button.  Each returns what it shows, in order, beside its
    value. *)

(** The calls to Streamlit that display a text. *)
Inductive ui : Type :=
| st_spinner (text : pystr)
| st_success (text : pystr)
| st_warning (text : pystr)
| st_error (text : pystr)
| st_info (text : pystr).

(** An uploaded file: a stream object, always true as a condition. *)
Record UploadedFile := {
  upload_name : pystr;
  upload_type : pystr;
  upload_bytes : file
}.

(** A comma before every group of three digits, on the digits in reverse. *)
Fixpoint group3 (rev_digits : pystr) : pystr :=
  match rev_digits with
  | a :: b :: c :: ((_ :: _) as rest) => a :: b :: c :: 44%N :: group3 rest
  | _ => rev_digits
  end.

(** The format [{n:,}] of a length. *)
Definition thousands (n : nat) : pystr :=
  rev (group3 (rev (of_Z (Z.of_nat n)))).

Section FrontEnd.

Variable py : Builtins.
Variable env : Env.

(** [bytes.decode("utf-8", errors="ignore")], a built-in. *)
Variable decode_utf8_ignore : file -> pystr.

(** [get_gemini_client] under [st.cache_resource]: the constructor runs
    on the first call of the process only. *)
Definition get_gemini_client (cached : bool) : method unit :=
  if cached then Method.ret tt else __init__ env None.

(** Lines 44 to 53 of [main]; the flag tells whether [st.stop()] ended
    the run. *)
Definition startup (cached : bool) : method (list ui * bool) :=
  match getenv env (lit "GOOGLE_API_KEY") with
  | Some (_ :: _) =>
      (get_gemini_client cached ;;
       r <- test_connection ;;
       if fst r then Method.ret ([], false)
       else
         Method.ret
           ([st_error
               ([0x1F534%N] ++ lit " Gemini client failed to initialize: "
                ++ snd r)],
            true))%method
  | _ =>
      Method.ret
        ([st_error
            ([0x1F534%N]
             ++ lit " Missing GOOGLE_API_KEY. Please create a .env file with your key.");
          st_info
            (lit "Example .env file:" ++ [10%N; 10%N]
             ++ lit "`GOOGLE_API_KEY=" ++ dq "your_api_key_here" ++ lit "`")],
         true)
  end.

(** The text read from an upload, by its media type. *)
Definition read_upload (f : UploadedFile) : except pystr :=
  if eqb (upload_type f) (lit "text/plain") then
    Ok (decode_utf8_ignore (upload_bytes f))
  else if eqb (upload_type f) (lit "application/pdf") then
    extract_text_from_pdf env (upload_bytes f)
  else if contains (lit "wordprocessingml") (upload_type f) then
    extract_text_from_docx env (upload_bytes f)
  else Ok [].

(** Lines 67 to 82 of [main]: the value of [final_transcript]. *)
Definition read_transcript (uploaded_file : option UploadedFile)
    (transcript_text : pystr) : except (list ui * pystr) :=
  match uploaded_file with
  | Some f =>
      (final <- read_upload f ;;
       Ok ([ st_spinner (lit "Reading " ++ upload_name f ++ lit "...");
             if truthy final then
               st_success
                 ([0x2705%N] ++ lit " Loaded " ++ thousands (List.length final)
                  ++ lit " characters from " ++ upload_name f)
             else
               st_warning
                 ([0x26A0%N; 0xFE0F%N]
                  ++ lit " Could not extract text from the uploaded file.") ],
           final))%except
  | None =>
      if truthy (strip transcript_text) then Ok ([], strip transcript_text)
      else Ok ([], [])
  end.

(** The button of line 86 is disabled on an empty transcript. *)
Definition button_disabled (final_transcript : pystr) : bool :=
  negb (truthy final_transcript).

(** Lines 87 to 95 of [main], the body of the button: what is shown, and
    [st.session_state.minutes] afterwards. *)
Definition on_generate (final_transcript : pystr)
    (session : option MinutesRecord)
  : method (list ui * option MinutesRecord) :=
  (minutes <- generate_meeting_minutes py env final_transcript ;;
   if generation_failed minutes then
     le <- Method.get_last_error ;;
     Method.ret
       ([ st_spinner
            ([0x1F9E0%N] ++ lit " Gemini is thinking... This may take a moment.");
          st_error
            ([0x1F534%N] ++ lit " Failed to generate minutes. Error: "
             ++ match le with
                | Some (c :: s) => c :: s
                | _ => lit "The AI could not process this transcript."
                end) ],
        session)
   else
     Method.ret
       ([ st_spinner
            ([0x1F9E0%N] ++ lit " Gemini is thinking... This may take a moment.");
          st_success ([0x2705%N] ++ lit " Minutes generated successfully!") ],
        Some minutes))%method.

End FrontEnd.

(** ** More vocabulary *)

(** The dict that [_clean_minutes] and [_create_fallback_minutes] return,
    keys in the order of the display. *)
Definition as_object (r : MinutesRecord) : pyval :=
  PyDict
    [ (lit "summary", PyStr (summary r));
      (lit "participants", PyList (map PyStr (participants r)));
      (lit "discussion_points", PyList (map PyStr (discussion_points r)));
      (lit "outcomes_or_decisions",
       PyList (map PyStr (outcomes_or_decisions r)));
      (lit "next_steps", PyList (map PyStr (next_steps r))) ].

(** A text without outer whitespace and not empty. *)
Definition trimmed (s : pystr) : Prop := strip s = s /\ s <> [].

(** The invariant of a record of minutes. *)
Definition well_formed (r : MinutesRecord) : Prop :=
  trimmed (summary r)
  /\ Forall (fun f => Forall trimmed (snd f r)) list_fields.

(** The five keys [_clean_minutes] reads. *)
Definition clean_keys : list pystr :=
  lit "summary" :: map fst list_fields.

Definition is_object (v : pyval) : bool :=
  match v with
  | PyDict _ => true
  | _ => false
  end.

(** The local [response] of [generate_meeting_minutes] after the call. *)
Definition response_of (called : except genai.Response)
  : option genai.Response :=
  match called with
  | Ok r => Some r
  | Raise _ => None
  end.

(** What the inner [try] of the handler adds to the message. *)
Definition diagnostic_suffix (response : option genai.Response) : pystr :=
  match first_finish_reason response with
  | Raise _ => []
  | Ok fr =>
      match genai.name fr with
      | Raise _ => []
      | Ok n =>
          lit " | Finish Reason: " ++ n
          ++ match first_safety_ratings response with
             | Ok sr => lit " | Safety Ratings: " ++ sr
             | Raise _ => []
             end
      end
  end.

(** [st.session_state.minutes] never holds a record the front end would
    report as a failure. *)
Definition session_clean (session : option MinutesRecord) : Prop :=
  match session with
  | Some r => generation_failed r = false
  | None => True
  end.

(** ** More scenarios *)

Definition blocked_answer : genai.Response :=
  {| genai.text :=
       Raise (Exception "ValueError" (lit "response was blocked"));
     genai.candidates :=
       Ok [ {| genai.finish_reason := Ok {| genai.name := Ok (lit "SAFETY") |};
               genai.safety_ratings := Ok (lit "[HARM_CATEGORY_HARASSMENT]") |} ] |}.

(** The endpoint answers, and the answer is blocked. *)
Definition blocks : Env :=
  {| getenv := fun _ => Some (lit "key");
     configure := fun _ => Ok tt;
     GenerativeModel := fun n m =>
       Ok {| genai.model_name := n; genai.response_mime_type := m |};
     generate_content := fun _ _ => Ok blocked_answer;
     json_loads := fun _ =>
       Raise (Exception "JSONDecodeError" (lit "Expecting value"));
     PdfReader := fun _ =>
       Raise (Exception "PdfReadError" (lit "EOF marker not found"));
     Document := fun _ =>
       Raise (Exception "PackageNotFoundError" (lit "Package not found")) |}.

(** The key is refused when the library is configured. *)
Definition refuses_key : Env :=
  {| getenv := fun _ => Some (lit "key");
     configure := fun _ => Raise (Exception "ValueError" (lit "invalid key"));
     GenerativeModel := fun n m =>
       Ok {| genai.model_name := n; genai.response_mime_type := m |};
     generate_content := fun _ _ => Raise unreachable;
     json_loads := fun _ =>
       Raise (Exception "JSONDecodeError" (lit "Expecting value"));
     PdfReader := fun _ =>
       Raise (Exception "PdfReadError" (lit "EOF marker not found"));
     Document := fun _ =>
       Raise (Exception "PackageNotFoundError" (lit "Package not found")) |}.

Definition array_answer : genai.Response :=
  {| genai.text := Ok (lit "[]"); genai.candidates := Ok [] |}.

Definition unreadable_page : PyPDF2.Page :=
  {| PyPDF2.extract_text := Raise (Exception "KeyError" (lit "'/Contents'")) |}.

Definition two_pages : PyPDF2.PdfReader :=
  {| PyPDF2.pages :=
       Ok [ {| PyPDF2.extract_text := Ok (lit "Ana: hello") |};
            unreadable_page ] |}.

(** Every file is a PDF of two pages whose second page cannot be read,
    and a document of a blank paragraph and a line of text. *)
Definition reads_files : Env :=
  {| getenv := fun _ => Some (lit "key");
     configure := fun _ => Ok tt;
     GenerativeModel := fun n m =>
       Ok {| genai.model_name := n; genai.response_mime_type := m |};
     generate_content := fun _ _ => Raise unreachable;
     json_loads := fun _ =>
       Raise (Exception "JSONDecodeError" (lit "Expecting value"));
     PdfReader := fun _ => Ok two_pages;
     Document := fun _ =>
       Ok {| docx.paragraphs :=
               Ok [ {| docx.text := lit "   " |};
                    {| docx.text := lit " Leo: bye" |} ] |} |}.

Definition failed_before : Run :=
  {| self := {| model := Some flash;
                last_error := Some (lit "API call failed: timed out") |};
     requests := [] |}.

Definition a_pdf : UploadedFile :=
  {| upload_name := lit "standup.pdf";
     upload_type := lit "application/pdf";
     upload_bytes := [] |}.

(** A decoder for the scenarios: the bytes of an ASCII file are its text. *)
Definition decode_ascii (f : file) : pystr :=
  map (fun b => N_of_ascii (ascii_of_byte b)) f.


(** * Properties *)

Unset Implicit Arguments.

(** ** Strings *)

Lemma truthy_nonempty (s : pystr) : truthy s = true <-> s <> [].
Proof. destruct s; simpl; split; congruence. Qed.

Lemma truthy_or_else (x y : pystr) : truthy y = true -> truthy (or_else x y) = true.
Proof. unfold or_else. destruct (truthy x) eqn:E; auto. Qed.

Lemma lstrip_head (s : pystr) :
  lstrip s = [] \/ exists c t, lstrip s = c :: t /\ isspace c = false.
Proof.
  induction s as [|c s IH]; simpl; [now left|].
  destruct (isspace c) eqn:E; [exact IH|].
  right. now exists c, s.
Qed.

Lemma lstrip_fixed (c : N) (t : pystr) :
  isspace c = false -> lstrip (c :: t) = c :: t.
Proof. intros E. simpl. now rewrite E. Qed.

Lemma lstrip_snoc (u : pystr) (c : N) :
  isspace c = false -> lstrip (u ++ [c]) = lstrip u ++ [c].
Proof.
  intros E. induction u as [|x u IH]; simpl.
  - now rewrite E.
  - destruct (isspace x); [exact IH | reflexivity].
Qed.

Lemma rstrip_cons (c : N) (t : pystr) :
  isspace c = false -> rstrip (c :: t) = c :: rstrip t.
Proof.
  intros E. unfold rstrip. simpl rev at 2.
  rewrite (lstrip_snoc _ _ E), rev_app_distr. reflexivity.
Qed.

Lemma lstrip_idem (s : pystr) : lstrip (lstrip s) = lstrip s.
Proof.
  destruct (lstrip_head s) as [-> | (c & t & -> & E)]; [reflexivity|].
  now apply lstrip_fixed.
Qed.

Lemma rstrip_idem (s : pystr) : rstrip (rstrip s) = rstrip s.
Proof. unfold rstrip. now rewrite rev_involutive, lstrip_idem. Qed.

(** Trimming a trimmed string changes nothing. *)
Lemma strip_idem (s : pystr) : strip (strip s) = strip s.
Proof.
  unfold strip.
  destruct (lstrip_head s) as [-> | (c & t & -> & E)]; [reflexivity|].
  rewrite (rstrip_cons _ _ E), (lstrip_fixed _ _ E), <- (rstrip_cons _ _ E).
  apply rstrip_idem.
Qed.

Lemma join_nil_inv (sep : pystr) (x : pystr) (xs : list pystr) :
  x <> [] -> join sep (x :: xs) <> [].
Proof.
  intros Hx. simpl. destruct xs; [exact Hx|].
  destruct x; [congruence | discriminate].
Qed.

Lemma startswith_app (p s : pystr) : startswith p (p ++ s) = true.
Proof.
  induction p as [|a p IH]; simpl; [reflexivity|].
  now rewrite N.eqb_refl.
Qed.

Lemma startswith_spec (p s : pystr) :
  startswith p s = true <-> exists b, s = p ++ b.
Proof.
  split.
  - revert s. induction p as [|a p IH]; intros s H.
    + now exists s.
    + destruct s as [|x s]; simpl in H; [discriminate|].
      apply andb_true_iff in H as [Hx Hs]. apply N.eqb_eq in Hx. subst x.
      destruct (IH _ Hs) as [b ->]. now exists b.
  - intros [b ->]. apply startswith_app.
Qed.

Lemma contains_startswith (needle hay : pystr) :
  startswith needle hay = true -> contains needle hay = true.
Proof. intros H. destruct hay; simpl; now rewrite H. Qed.

(** [needle in hay] holds exactly when [hay] splits around [needle]. *)
Lemma contains_spec (needle hay : pystr) :
  contains needle hay = true <-> exists a b, hay = a ++ needle ++ b.
Proof.
  split.
  - induction hay as [|x hay IH]; simpl; intros H.
    + rewrite orb_false_r in H. apply startswith_spec in H as [b Hb].
      now exists [], b.
    + apply orb_true_iff in H as [H | H].
      * apply startswith_spec in H as [b Hb]. now exists [], b.
      * destruct (IH H) as (a & b & ->). now exists (x :: a), b.
  - intros (a & b & ->). induction a as [|x a IH].
    + apply contains_startswith. exact (startswith_app needle b).
    + simpl. now rewrite IH, orb_true_r.
Qed.

Lemma eqb_refl (s : pystr) : eqb s s = true.
Proof. induction s; simpl; [reflexivity | now rewrite N.eqb_refl]. Qed.

Lemma eqb_eq (a b : pystr) : eqb a b = true <-> a = b.
Proof.
  split; [| intros ->; apply eqb_refl].
  revert b. induction a as [|x a IH]; destruct b as [|y b]; simpl;
    try discriminate; auto.
  intros H. apply andb_true_iff in H as [Hx Hs].
  apply N.eqb_eq in Hx. f_equal; auto.
Qed.

(** ** Text of a value *)

Lemma repr_char_ascii (py1 py2 : Builtins) (quote c : N) :
  (c <? 128)%N = true -> repr_char py1 quote c = repr_char py2 quote c.
Proof.
  intros Hc. unfold repr_char.
  repeat match goal with
         | |- (if ?b then _ else _) = (if ?b then _ else _) =>
             destruct b eqn:?; [reflexivity|]
         end.
  apply N.ltb_lt in Hc.
  repeat match goal with
         | H : (_ || _)%bool = false |- _ =>
             apply orb_false_iff in H as [? ?]
         | H : (_ <? _)%N = false |- _ => apply N.ltb_ge in H
         | H : (_ =? _)%N = false |- _ => apply N.eqb_neq in H
         end.
  lia.
Qed.

Lemma str_repr_ascii (py1 py2 : Builtins) (s : pystr) :
  ascii_text s = true -> str_repr py1 s = str_repr py2 s.
Proof.
  intros Hs. unfold str_repr. cbv zeta. f_equal. f_equal.
  generalize (if existsb (N.eqb 39) s && negb (existsb (N.eqb 34) s)
              then 34%N else 39%N).
  intros quote. induction s as [|c s IH]; [reflexivity|].
  cbn [ascii_text forallb] in Hs. apply andb_true_iff in Hs as [Hc Hs].
  cbn [flat_map]. now rewrite (repr_char_ascii py1 py2 quote c Hc), (IH Hs).
Qed.

Lemma py_repr_plain (py1 py2 : Builtins) :
  forall v, plain v = true -> py_repr py1 v = py_repr py2 v.
Proof.
  fix IH 1. intros [| b | z | f | s | l | d] Hv; cbn [py_repr];
    try reflexivity.
  - discriminate.
  - now apply str_repr_ascii.
  - do 3 f_equal. cbn [plain] in Hv.
    induction l as [|x l IHl]; [reflexivity|].
    cbn [forallb] in Hv. apply andb_true_iff in Hv as [Hx Hl].
    cbn [map]. f_equal; [apply IH, Hx | apply IHl, Hl].
  - do 3 f_equal. cbn [plain] in Hv.
    induction d as [|[k x] d IHd]; [reflexivity|].
    cbn [forallb fst snd] in Hv.
    apply andb_true_iff in Hv as [Hkx Hd].
    apply andb_true_iff in Hkx as [Hk Hx].
    cbn [map fst snd]. f_equal; [| apply IHd, Hd].
    now rewrite (str_repr_ascii py1 py2 k Hk), (IH x Hx).
Qed.

(** On plain values every interpreter prints the same text. *)
Lemma py_str_plain (py1 py2 : Builtins) (v : pyval) :
  plain v = true -> py_str py1 v = py_str py2 v.
Proof.
  destruct v; try exact (py_repr_plain py1 py2 _); reflexivity.
Qed.

(** ** Cleaning *)

Lemma dict_get_missing (d : list (pystr * pyval)) (key : pystr) (default : pyval) :
  missing d key -> dict_get d key default = default.
Proof.
  unfold missing. induction d as [|[k v] d IH]; intros H; simpl; [reflexivity|].
  destruct (eqb k key) eqn:E.
  - apply eqb_eq in E. subst k. exfalso. apply (H v). now left.
  - apply IH. intros w Hw. apply (H w). now right.
Qed.

Lemma py_iter_iterable (v : pyval) :
  iterable v = true <-> exists items, py_iter v = Ok items.
Proof.
  destruct v; simpl; split; intros H; try discriminate; eauto;
    destruct H as [items H]; discriminate.
Qed.

Lemma stripped_items_inv (py : Builtins) (v : pyval) (l : list pystr) :
  stripped_items py v = Ok l ->
  exists items, py_iter v = Ok items /\ l = stripped py items.
Proof.
  unfold stripped_items. destruct (py_iter v) as [items|e]; simpl; intros H;
    [| discriminate].
  exists items. split; congruence.
Qed.

(** The comprehension is the cleaning the design document describes. *)
Lemma stripped_spec (py : Builtins) (items : list pyval) :
  stripped py items = spec_clean_list py items.
Proof.
  unfold stripped, spec_clean_list.
  induction items as [|p items IH]; simpl; [reflexivity|].
  destruct (strip (py_str py p)) eqn:E; simpl; rewrite ?E, IH; reflexivity.
Qed.

Lemma stripped_app (py : Builtins) (xs ys : list pyval) :
  stripped py (xs ++ ys) = stripped py xs ++ stripped py ys.
Proof. unfold stripped. now rewrite filter_app, map_app. Qed.

Lemma stripped_nonblank (py : Builtins) (items : list pyval) :
  Forall (fun e => strip e <> []) (stripped py items).
Proof.
  unfold stripped. apply Forall_forall. intros e He.
  apply in_map_iff in He as (p & <- & Hp).
  apply filter_In in Hp as [_ Hp]. rewrite strip_idem.
  now apply truthy_nonempty.
Qed.

(** On an object, cleaning reads five keys and nothing else. *)
Lemma clean_object (py : Builtins) (d : list (pystr * pyval)) :
  _clean_minutes py (PyDict d) =
  (p <- stripped_items py (dict_get d (lit "participants") (PyList [])) ;;
   t <- stripped_items py (dict_get d (lit "discussion_points") (PyList [])) ;;
   o <- stripped_items py (dict_get d (lit "outcomes_or_decisions") (PyList [])) ;;
   n <- stripped_items py (dict_get d (lit "next_steps") (PyList [])) ;;
   Ok {| summary :=
           or_else (strip (py_str py (dict_get d (lit "summary") (PyStr []))))
             (lit "No summary available.");
         participants := p;
         discussion_points := t;
         outcomes_or_decisions := o;
         next_steps := n |})%except.
Proof. reflexivity. Qed.

Lemma clean_object_inv (py : Builtins) (d : list (pystr * pyval))
    (r : MinutesRecord) :
  _clean_minutes py (PyDict d) = Ok r ->
  summary r =
    or_else (strip (py_str py (dict_get d (lit "summary") (PyStr []))))
      (lit "No summary available.")
  /\ Forall (fun f => exists items,
               py_iter (dict_get d (fst f) (PyList [])) = Ok items
               /\ snd f r = stripped py items) list_fields.
Proof.
  rewrite clean_object.
  destruct (stripped_items py (dict_get d (lit "participants") (PyList [])))
    as [p|] eqn:Ep; [|discriminate].
  destruct (stripped_items py (dict_get d (lit "discussion_points") (PyList [])))
    as [t|] eqn:Et; [|discriminate].
  destruct (stripped_items py (dict_get d (lit "outcomes_or_decisions") (PyList [])))
    as [o|] eqn:Eo; [|discriminate].
  destruct (stripped_items py (dict_get d (lit "next_steps") (PyList [])))
    as [n|] eqn:En; [|discriminate].
  cbn [bind]. intros H. injection H as <-. split; [reflexivity|].
  apply stripped_items_inv in Ep, Et, Eo, En.
  repeat constructor; assumption.
Qed.

(** C1, as amended.  [_clean_minutes] returns a record on every object
    whose four list fields are each missing or iterable (an array, a string
    or an object), whatever else the object holds: the record is computed
    from the five keys alone, so extra keys are ignored, and a summary of
    any type is turned into text by [str]. *)
Theorem clean_total_on_iterable_fields (py : Builtins)
    (d : list (pystr * pyval)) :
  list_fields_iterable d = true ->
  exists p t o n,
    py_iter (dict_get d (lit "participants") (PyList [])) = Ok p
    /\ py_iter (dict_get d (lit "discussion_points") (PyList [])) = Ok t
    /\ py_iter (dict_get d (lit "outcomes_or_decisions") (PyList [])) = Ok o
    /\ py_iter (dict_get d (lit "next_steps") (PyList [])) = Ok n
    /\ _clean_minutes py (PyDict d) =
       Ok {| summary :=
               or_else
                 (strip (py_str py (dict_get d (lit "summary") (PyStr []))))
                 (lit "No summary available.");
             participants := stripped py p;
             discussion_points := stripped py t;
             outcomes_or_decisions := stripped py o;
             next_steps := stripped py n |}.
Proof.
  unfold list_fields_iterable, list_fields. cbn [forallb fst].
  rewrite !andb_true_iff. intros (Hp & Ht & Ho & Hn & _).
  apply py_iter_iterable in Hp as [p Hp], Ht as [t Ht], Ho as [o Ho],
    Hn as [n Hn].
  exists p, t, o, n. repeat (split; [assumption|]).
  rewrite clean_object. unfold stripped_items.
  rewrite Hp, Ht, Ho, Hn. reflexivity.
Qed.

(** The other side of C1: a list field that is not iterable makes
    [_clean_minutes] raise a [TypeError]. *)
Lemma clean_raises_on_non_iterable (py : Builtins) (d : list (pystr * pyval)) :
  list_fields_iterable d = false ->
  exists e, _clean_minutes py (PyDict d) = Raise e
            /\ exn_class e = "TypeError"%string.
Proof.
  unfold list_fields_iterable, list_fields. cbn [forallb fst].
  rewrite clean_object. unfold stripped_items.
  repeat match goal with
         | |- context [py_iter ?v] =>
             destruct v; cbn [py_iter bind iterable andb];
             try discriminate;
             try (intros _; eexists; split; reflexivity)
         end.
Qed.

(** C2.  Whenever [_clean_minutes] returns a record for an object: the
    summary is not empty, it is the trimmed text of the source, or the
    placeholder when that text is empty; every entry of the four lists is
    non-empty after trimming; each list is the design document's cleaning
    of the elements of its field, in their order; a missing field gives the
    empty list. *)
Theorem clean_invariants (py : Builtins) (d : list (pystr * pyval))
    (r : MinutesRecord) :
  _clean_minutes py (PyDict d) = Ok r ->
  let source := strip (py_str py (dict_get d (lit "summary") (PyStr []))) in
  summary r <> []
  /\ (source = [] -> summary r = lit "No summary available.")
  /\ (source <> [] -> summary r = source)
  /\ Forall (fun f =>
       Forall (fun e => strip e <> []) (snd f r)
       /\ (exists items,
             py_iter (dict_get d (fst f) (PyList [])) = Ok items
             /\ snd f r = spec_clean_list py items)
       /\ (missing d (fst f) -> snd f r = [])) list_fields.
Proof.
  intros H source. apply clean_object_inv in H as [Hs Hl].
  fold source in Hs. repeat split.
  - rewrite Hs. apply truthy_nonempty, truthy_or_else. reflexivity.
  - intros E. rewrite Hs, E. reflexivity.
  - intros E. rewrite Hs. unfold or_else.
    apply truthy_nonempty in E. now rewrite E.
  - eapply Forall_impl; [| exact Hl].
    intros f (items & Hi & Hf). repeat split.
    + rewrite Hf. apply stripped_nonblank.
    + exists items. split; [exact Hi|]. rewrite Hf. apply stripped_spec.
    + intros Hm. rewrite (dict_get_missing _ _ _ Hm) in Hi.
      injection Hi as <-. exact Hf.
Qed.

(** C10.  Text is made before emptiness is tested: when the record is
    returned, a null summary gives the summary [None], and a null element
    of a list field stays in the list as the entry [None], between the
    cleaned elements before it and those after it. *)
Theorem clean_null_becomes_None (py : Builtins) (d : list (pystr * pyval))
    (r : MinutesRecord) :
  _clean_minutes py (PyDict d) = Ok r ->
  (dict_get d (lit "summary") (PyStr []) = PyNone -> summary r = lit "None")
  /\ Forall (fun f => forall xs ys,
       dict_get d (fst f) (PyList []) = PyList (xs ++ PyNone :: ys) ->
       snd f r = stripped py xs ++ lit "None" :: stripped py ys) list_fields.
Proof.
  intros H. apply clean_object_inv in H as [Hs Hl]. split.
  - intros E. rewrite Hs, E. reflexivity.
  - eapply Forall_impl; [| exact Hl].
    intros f (items & Hi & Hf) xs ys E. rewrite E in Hi.
    injection Hi as <-. rewrite Hf, stripped_app. reflexivity.
Qed.

(** ** The client *)

(** The inner [try] only ever appends to the message. *)
Lemma diagnostics_append (response : option genai.Response) (st : Run)
    (msg : pystr) :
  last_error (self st) = Some msg ->
  exists extra,
    Method.try_except (diagnostics response) (fun _ => Method.ret tt) st
    = (Ok tt, with_last_error st (msg ++ extra)).
Proof.
  destruct st as [[m le] reqs]. cbn [self last_error]. intros ->.
  unfold diagnostics, iadd_last_error, Method.try_except, Method.bind,
    Method.lift, Method.get_last_error, Method.set_last_error, Method.ret,
    with_last_error.
  cbn [self last_error model requests].
  destruct (first_finish_reason response) as [fr|e1]; cbn [bind].
  2:{ exists []. now rewrite app_nil_r. }
  destruct (genai.name fr) as [n|e2]; cbn [bind self last_error model requests].
  2:{ exists []. now rewrite app_nil_r. }
  destruct (first_safety_ratings response) as [sr|e3];
    cbn [bind self last_error model requests].
  - exists ((lit " | Finish Reason: " ++ n) ++ lit " | Safety Ratings: " ++ sr).
    now rewrite <- (app_assoc msg (lit " | Finish Reason: " ++ n)).
  - now exists (lit " | Finish Reason: " ++ n).
Qed.

Lemma call_fails_outcome (py : Builtins) (env : Env)
    (handle : genai.GenerativeModel) (transcript : pystr) (e : exn) :
  call_fails py env handle transcript e <->
  attempt_outcome py env handle transcript = Raise e.
Proof.
  unfold attempt_outcome. split.
  - intros [H | r H1 H2 | r body H1 H2 H3 | r body minutes H1 H2 H3 H4];
      rewrite ?H, ?H1; cbn [bind]; rewrite ?H2; cbn [bind];
      rewrite ?H3; cbn [bind]; auto.
  - destruct (generate_content env handle (full_prompt transcript))
      as [r|e1] eqn:H1; cbn [bind].
    2:{ intros [= <-]. now apply call_raises. }
    destruct (genai.text r) as [body|e2] eqn:H2; cbn [bind].
    2:{ intros [= <-]. now apply answer_blocked with r. }
    destruct (json_loads env body) as [minutes|e3] eqn:H3; cbn [bind].
    2:{ intros [= <-]. now apply body_not_json with r body. }
    intros H4. now apply object_not_cleaned with r body minutes.
Qed.

(** One call on a configured client: the request is sent, then either the
    cleaned record comes back and the object is untouched, or the error is
    recorded and the fallback comes back. *)
Lemma generate_configured (py : Builtins) (env : Env) (transcript : pystr)
    (st : Run) (handle : genai.GenerativeModel) :
  model (self st) = Some handle ->
  match attempt_outcome py env handle transcript with
  | Ok r =>
      generate_meeting_minutes py env transcript st
      = (Ok r, sent st (full_prompt transcript))
  | Raise e =>
      exists extra,
        generate_meeting_minutes py env transcript st
        = (Ok _create_fallback_minutes,
           with_last_error (sent st (full_prompt transcript))
             (lit "API call failed: " ++ exn_str e ++ extra))
  end.
Proof.
  intros Hm.
  assert (Hfail : forall response e,
    exists extra,
      Method.bind
        (Method.set_last_error (Some (lit "API call failed: " ++ exn_str e)))
        (fun _ =>
           Method.bind
             (Method.try_except (diagnostics response) (fun _ => Method.ret tt))
             (fun _ => Method.ret _create_fallback_minutes))
        (sent st (full_prompt transcript))
      = (Ok _create_fallback_minutes,
         with_last_error (sent st (full_prompt transcript))
           (lit "API call failed: " ++ exn_str e ++ extra))).
  { intros response e. unfold Method.bind at 1. cbn [Method.set_last_error].
    match goal with |- context [Method.bind _ _ ?s] => set (st1 := s) end.
    destruct (diagnostics_append response st1
                (lit "API call failed: " ++ exn_str e) eq_refl) as [extra Hd].
    exists extra. unfold Method.bind. rewrite Hd. cbn [Method.ret].
    unfold with_last_error, st1. cbn [self model requests].
    now rewrite <- app_assoc. }
  unfold attempt_outcome.
  destruct (generate_content env handle (full_prompt transcript))
    as [r|e1] eqn:Hc; cbn [bind].
  2:{ destruct (Hfail None e1) as [extra He]. exists extra. rewrite <- He.
      unfold generate_meeting_minutes, Method.bind at 1.
      cbn [Method.get_model]. rewrite Hm.
      unfold Method.bind at 1, Method.attempt, Method.call_generate_content.
      rewrite Hc. reflexivity. }
  assert (Hg : generate_meeting_minutes py env transcript st
               = Method.try_except
                   (Method.lift
                      (body <- genai.text r ;;
                       minutes <- json_loads env body ;;
                       _clean_minutes py minutes)%except)
                   (fun e =>
                      Method.bind
                        (Method.set_last_error
                           (Some (lit "API call failed: " ++ exn_str e)))
                        (fun _ =>
                           Method.bind
                             (Method.try_except (diagnostics (Some r))
                                (fun _ => Method.ret tt))
                             (fun _ => Method.ret _create_fallback_minutes)))
                   (sent st (full_prompt transcript))).
  { unfold generate_meeting_minutes, Method.bind at 1.
    cbn [Method.get_model]. rewrite Hm.
    unfold Method.bind at 1, Method.attempt, Method.call_generate_content.
    rewrite Hc. fold (sent st (full_prompt transcript)).
    unfold Method.try_except, Method.lift. unfold Method.bind at 1 2 3.
    destruct (genai.text r) as [body|]; cbn [bind]; [|reflexivity].
    destruct (json_loads env body) as [minutes|]; cbn [bind]; reflexivity. }
  rewrite Hg. unfold Method.try_except at 1, Method.lift.
  destruct (genai.text r) as [body|e2]; cbn [bind]; [| apply Hfail].
  destruct (json_loads env body) as [minutes|e3]; cbn [bind]; [| apply Hfail].
  destruct (_clean_minutes py minutes) as [rec|e4]; [reflexivity | apply Hfail].
Qed.

(** Without a handle the method returns at its first test. *)
Lemma generate_unconfigured (py : Builtins) (env : Env) (transcript : pystr)
    (st : Run) :
  model (self st) = None ->
  generate_meeting_minutes py env transcript st
  = (Ok _create_fallback_minutes, st).
Proof.
  intros Hm. unfold generate_meeting_minutes, Method.bind.
  cbn [Method.get_model]. rewrite Hm. reflexivity.
Qed.

(** A failed call, in full: what is returned and what is recorded. *)
Lemma generate_failure_outcome (py : Builtins) (env : Env)
    (transcript : pystr) (st : Run) (handle : genai.GenerativeModel)
    (e : exn) :
  model (self st) = Some handle ->
  call_fails py env handle transcript e ->
  exists msg,
    generate_meeting_minutes py env transcript st
    = (Ok _create_fallback_minutes,
       with_last_error (sent st (full_prompt transcript)) msg)
    /\ startswith (lit "API call failed: " ++ exn_str e) msg = true.
Proof.
  intros Hm Hf. apply call_fails_outcome in Hf.
  pose proof (generate_configured py env transcript st handle Hm) as H.
  rewrite Hf in H. destruct H as [extra H].
  exists (lit "API call failed: " ++ exn_str e ++ extra).
  split; [exact H|]. rewrite app_assoc. apply startswith_app.
Qed.

(** C3.  On a configured client, when the remote call raises, the answer is
    blocked, its body is not JSON or the decoded object cannot be cleaned,
    [generate_meeting_minutes] returns normally with the fallback record;
    the request was sent, and [last_error] is then a non-empty text that
    starts with the message of the failure and contains
    [API call failed]. *)
Theorem generate_failure_gives_fallback (py : Builtins) (env : Env)
    (transcript : pystr) (st : Run) (handle : genai.GenerativeModel)
    (e : exn) :
  model (self st) = Some handle ->
  call_fails py env handle transcript e ->
  exists msg,
    generate_meeting_minutes py env transcript st
    = (Ok {| summary :=
               lit "Could not automatically generate minutes. Manual review required.";
             participants := [];
             discussion_points := [];
             outcomes_or_decisions := [];
             next_steps := [] |},
       with_last_error (sent st (full_prompt transcript)) msg)
    /\ msg <> []
    /\ startswith (lit "API call failed: " ++ exn_str e) msg = true
    /\ contains (lit "API call failed") msg = true.
Proof.
  intros Hm Hf.
  destruct (generate_failure_outcome py env transcript st handle e Hm Hf)
    as (msg & Hg & Hs).
  exists msg. split; [exact Hg|].
  apply startswith_spec in Hs as [extra ->].
  split; [discriminate|]. split; [apply startswith_app|].
  apply contains_spec.
  exists [], (lit ": " ++ exn_str e ++ extra).
  now rewrite <- app_assoc.
Qed.

(** C4.  On a client without a model handle, [generate_meeting_minutes]
    returns the fallback record for every transcript and leaves the run as
    it was: no request is sent and [last_error] keeps its value. *)
Theorem generate_unconfigured_gives_fallback (py : Builtins) (env : Env)
    (transcript : pystr) (st : Run) :
  model (self st) = None ->
  generate_meeting_minutes py env transcript st
  = (Ok {| summary :=
             lit "Could not automatically generate minutes. Manual review required.";
           participants := [];
           discussion_points := [];
           outcomes_or_decisions := [];
           next_steps := [] |},
     st).
Proof.
  intros Hm. unfold generate_meeting_minutes, Method.bind.
  cbn [Method.get_model]. rewrite Hm. reflexivity.
Qed.

Lemma generate_keeps_model (py : Builtins) (env : Env) (transcript : pystr)
    (st : Run) :
  model (self (snd (generate_meeting_minutes py env transcript st)))
  = model (self st).
Proof.
  destruct (model (self st)) as [handle|] eqn:Hm.
  - pose proof (generate_configured py env transcript st handle Hm) as H.
    destruct (attempt_outcome py env handle transcript) as [r|e].
    + rewrite H. exact Hm.
    + destruct H as [extra ->]. exact Hm.
  - rewrite (generate_unconfigured py env transcript st Hm).
    exact Hm.
Qed.

(** C9.  A call that succeeds returns the cleaned record and leaves the
    object as it was, [last_error] included; so when a failed call is
    followed by a successful one, [last_error] still holds the message of
    the failed call. *)
Theorem generate_success_keeps_last_error (py : Builtins) (env : Env)
    (transcript : pystr) (st : Run) (handle : genai.GenerativeModel)
    (r : MinutesRecord) :
  model (self st) = Some handle ->
  attempt_outcome py env handle transcript = Ok r ->
  generate_meeting_minutes py env transcript st
  = (Ok r, sent st (full_prompt transcript))
  /\ last_error (self (snd (generate_meeting_minutes py env transcript st)))
     = last_error (self st)
  /\ forall env0 transcript0 e,
       call_fails py env0 handle transcript0 e ->
       let st1 := snd (generate_meeting_minutes py env0 transcript0 st) in
       exists msg,
         last_error (self st1) = Some msg
         /\ startswith (lit "API call failed: " ++ exn_str e) msg = true
         /\ fst (generate_meeting_minutes py env transcript st1) = Ok r
         /\ last_error (self (snd (generate_meeting_minutes py env transcript st1)))
            = Some msg.
Proof.
  intros Hm Hok.
  assert (Hframe : forall st', model (self st') = Some handle ->
            generate_meeting_minutes py env transcript st'
            = (Ok r, sent st' (full_prompt transcript))).
  { intros st' Hm'.
    pose proof (generate_configured py env transcript st' handle Hm') as H.
    now rewrite Hok in H. }
  split; [now apply Hframe|].
  split; [now rewrite (Hframe st Hm)|].
  intros env0 transcript0 e Hf st1.
  destruct (generate_failure_outcome py env0 transcript0 st handle e Hm Hf)
    as (msg & Hg & Hs).
  assert (Hm1 : model (self st1) = Some handle).
  { unfold st1. now rewrite generate_keeps_model. }
  exists msg. unfold st1 at 1. rewrite Hg, (Hframe st1 Hm1).
  repeat split; try assumption.
  cbn [snd sent self]. unfold st1. rewrite Hg. reflexivity.
Qed.

(** C5.  [__init__] returns normally for every key argument and every
    environment, and sends nothing; with no key argument and no
    [GOOGLE_API_KEY] in the environment it leaves the client without a
    handle and with the message [GOOGLE_API_KEY is missing or not
    provided.] in [last_error].  [test_connection], which consults neither
    the environment nor the network, changes nothing and answers true with
    its fixed message exactly when the handle is set, and otherwise false
    with [last_error], or the stock message when [last_error] is null or
    empty. *)
Theorem construct_and_test_connection (env : Env) (api_key : option pystr)
    (st : Run) :
  (exists st', __init__ env api_key st = (Ok tt, st')
               /\ requests st' = requests st)
  /\ (api_key = None ->
      getenv env (lit "GOOGLE_API_KEY") = None ->
      __init__ env api_key st
      = (Ok tt,
         {| self :=
              {| model := None;
                 last_error :=
                   Some (lit "GOOGLE_API_KEY is missing or not provided.") |};
            requests := requests st |}))
  /\ test_connection st
     = (Ok match model (self st) with
           | Some _ => (true, lit "Gemini client configured successfully.")
           | None =>
               (false,
                match last_error (self st) with
                | Some (c :: s) => c :: s
                | _ => lit "Client could not be initialized."
                end)
           end,
        st)
  /\ ((exists msg, fst (test_connection st) = Ok (true, msg))
      <-> model (self st) <> None).
Proof.
  split; [| split; [| split]].
  - unfold __init__, Method.bind, Method.try_except, Method.lift.
    cbn [Method.set_model Method.set_last_error self model last_error requests].
    destruct (opt_or api_key (getenv env (lit "GOOGLE_API_KEY")))
      as [[|c k]|]; try (eexists; split; reflexivity).
    destruct (configure env (c :: k)) as [[]|e1];
      [| eexists; split; reflexivity].
    destruct (GenerativeModel env (lit "gemini-1.5-flash")
                (lit "application/json")) as [m|e2];
      eexists; split; reflexivity.
  - intros -> Hg. unfold __init__, Method.bind, Method.try_except.
    cbn [opt_or]. rewrite Hg. reflexivity.
  - unfold test_connection, Method.bind. cbn [Method.get_model].
    destruct (model (self st)); reflexivity.
  - unfold test_connection, Method.bind. cbn [Method.get_model].
    destruct (model (self st)); cbn; split.
    + discriminate.
    + intros _. eexists. reflexivity.
    + intros [msg H]. discriminate.
    + intros H. now contradiction H.
Qed.

(** ** The export *)

Lemma emitted_app (l1 l2 : list (pystr * pystr)) :
  emitted (l1 ++ l2) = emitted l1 ++ emitted l2.
Proof. unfold emitted. now rewrite filter_app, map_app. Qed.

Lemma emitted_prose (header body : pystr) :
  emitted [(header, body)] = spec_prose header body.
Proof. destruct body; reflexivity. Qed.

(** A bullet list is empty only for the empty list. *)
Lemma truthy_bullets (item : pystr) (items : list pystr) :
  truthy (bullets (item :: items)) = true.
Proof. unfold bullets. destruct items; reflexivity. Qed.

Lemma emitted_list (header : pystr) (items : list pystr) :
  emitted [(header, bullets items)] = spec_list header items.
Proof.
  destruct items as [|item items]; [reflexivity|].
  unfold emitted. cbn [filter snd]. rewrite truthy_bullets. reflexivity.
Qed.

Lemma emitted_sections (r : MinutesRecord) :
  emitted (sections r)
  = spec_prose (lit "## " ++ [0x2728%N] ++ lit " Summary") (summary r)
    ++ spec_list (lit "## " ++ [0x1F465%N] ++ lit " Participants")
         (participants r)
    ++ spec_list (lit "## " ++ [0x1F5E3%N; 0xFE0F%N] ++ lit " Discussion Points")
         (discussion_points r)
    ++ spec_list (lit "## " ++ [0x2705%N] ++ lit " Outcomes or Decisions")
         (outcomes_or_decisions r)
    ++ spec_list (lit "## " ++ [0x1F680%N] ++ lit " Next Steps")
         (next_steps r).
Proof.
  unfold sections.
  match goal with
  | |- emitted [?a; ?b; ?c; ?d; ?e] = ?rhs =>
      change (emitted ([a] ++ [b] ++ [c] ++ [d] ++ [e]) = rhs)
  end.
  rewrite !emitted_app.
  now rewrite emitted_prose, !emitted_list.
Qed.

Lemma format_spec (r : MinutesRecord) :
  format_minutes_as_markdown r = spec_markdown r.
Proof.
  unfold format_minutes_as_markdown, spec_markdown. f_equal.
  exact (emitted_sections r).
Qed.

(** C6.  The export is the design document's: for the five fields in the
    order summary, participants, discussion points, outcomes or decisions,
    next steps, a header line followed by the summary or by one [- ] line
    per item, only for the fields that are not empty, the sections joined
    by a blank line.  Hence a record without discussion points is exported
    as the four other fields are, and a record with only a summary as the
    one summary section. *)
Theorem markdown_export (r : MinutesRecord) :
  format_minutes_as_markdown r = spec_markdown r
  /\ (forall s p o n,
        format_minutes_as_markdown
          {| summary := s; participants := p; discussion_points := [];
             outcomes_or_decisions := o; next_steps := n |}
        = join [10%N; 10%N]
            (spec_prose (lit "## " ++ [0x2728%N] ++ lit " Summary") s
             ++ spec_list (lit "## " ++ [0x1F465%N] ++ lit " Participants") p
             ++ spec_list (lit "## " ++ [0x2705%N] ++ lit " Outcomes or Decisions") o
             ++ spec_list (lit "## " ++ [0x1F680%N] ++ lit " Next Steps") n))
  /\ (forall c s,
        format_minutes_as_markdown
          {| summary := c :: s; participants := []; discussion_points := [];
             outcomes_or_decisions := []; next_steps := [] |}
        = lit "## " ++ [0x2728%N] ++ lit " Summary" ++ [10%N] ++ c :: s).
Proof.
  split; [apply format_spec|]. split.
  - intros s p o n. rewrite format_spec. reflexivity.
  - intros c s. reflexivity.
Qed.

(** ** The failure test *)

(** C7, as amended.  The front end reports a failure exactly when the
    summary of the record contains the text [Could not automatically
    generate minutes]; the test reads nothing but the summary, and it
    holds for every record whose summary is the fallback literal, the
    fallback record among them. *)
Theorem failure_is_substring_test (r : MinutesRecord) :
  (generation_failed r = true <->
   exists a b,
     summary r = a ++ lit "Could not automatically generate minutes" ++ b)
  /\ (forall r', summary r' = summary r ->
                 generation_failed r' = generation_failed r)
  /\ (summary r
      = lit "Could not automatically generate minutes. Manual review required." ->
      generation_failed r = true)
  /\ generation_failed _create_fallback_minutes = true.
Proof.
  split; [apply contains_spec|]. split; [|split].
  - intros r' H. unfold generation_failed. now rewrite H.
  - intros H. unfold generation_failed. rewrite H. reflexivity.
  - reflexivity.
Qed.

(** ** The file helpers *)

Lemma page_texts_spec (pages : list PyPDF2.Page) :
  page_texts pages
  = (ts <- all_page_texts pages ;; Ok (filter truthy ts))%except.
Proof.
  induction pages as [|page rest IH]; [reflexivity|].
  cbn [page_texts all_page_texts].
  destruct (PyPDF2.extract_text page) as [t|e]; cbn [bind]; [|reflexivity].
  rewrite IH. destruct (all_page_texts rest) as [ts|e]; cbn [bind filter];
    destruct (truthy t); reflexivity.
Qed.

(** C8.  Both helpers always return a string.  [extract_text_from_pdf]
    returns the empty string when the reader, its page list or the
    extraction of any page raises, and otherwise the texts of the pages
    whose text is not empty, joined by a blank line.
    [extract_text_from_docx] returns the empty string when the document or
    its paragraph list raises, and otherwise the texts of the paragraphs
    whose trimmed text is not empty, joined by a newline. *)
Theorem extraction_total (env : Env) (f : file) :
  extract_text_from_pdf env f
  = Ok match (reader <- PdfReader env f ;;
              ps <- PyPDF2.pages reader ;;
              all_page_texts ps)%except with
       | Ok texts => join [10%N; 10%N] (filter truthy texts)
       | Raise _ => []
       end
  /\ extract_text_from_docx env f
     = Ok match (doc <- Document env f ;; docx.paragraphs doc)%except with
          | Ok ps =>
              join [10%N]
                (map docx.text
                   (filter (fun p => truthy (strip (docx.text p))) ps))
          | Raise _ => []
          end.
Proof.
  split.
  - unfold extract_text_from_pdf.
    destruct (PdfReader env f) as [reader|e]; cbn [bind try_except];
      [|reflexivity].
    destruct (PyPDF2.pages reader) as [ps|e]; cbn [bind try_except];
      [|reflexivity].
    rewrite page_texts_spec.
    destruct (all_page_texts ps) as [ts|e]; reflexivity.
  - unfold extract_text_from_docx.
    destruct (Document env f) as [doc|e]; cbn [bind try_except];
      [|reflexivity].
    destruct (docx.paragraphs doc) as [ps|e]; reflexivity.
Qed.

(** * The properties on the scenarios *)

(** The two examples of the design document. *)
Example clean_empty_object :
  _clean_minutes plain_builtins (PyDict []) = Ok empty_record.
Proof. vm_compute. reflexivity. Qed.

Example clean_q3_object :
  _clean_minutes plain_builtins (PyDict q3_object) = Ok q3_record.
Proof. vm_compute. reflexivity. Qed.

(** C1 as stated fails: a null list field makes [_clean_minutes] raise. *)
Lemma clean_raises_on_null_list :
  _clean_minutes plain_builtins (PyDict [(lit "participants", PyNone)])
  = Raise (Exception "TypeError" (lit "'NoneType' object is not iterable")).
Proof. vm_compute. reflexivity. Qed.

Lemma clean_total_on_q3 :
  list_fields_iterable q3_object = true
  /\ exists p t o n,
       py_iter (dict_get q3_object (lit "participants") (PyList [])) = Ok p
       /\ py_iter (dict_get q3_object (lit "discussion_points") (PyList [])) = Ok t
       /\ py_iter (dict_get q3_object (lit "outcomes_or_decisions") (PyList [])) = Ok o
       /\ py_iter (dict_get q3_object (lit "next_steps") (PyList [])) = Ok n
       /\ _clean_minutes plain_builtins (PyDict q3_object) =
          Ok {| summary :=
                  or_else
                    (strip (py_str plain_builtins
                              (dict_get q3_object (lit "summary") (PyStr []))))
                    (lit "No summary available.");
                participants := stripped plain_builtins p;
                discussion_points := stripped plain_builtins t;
                outcomes_or_decisions := stripped plain_builtins o;
                next_steps := stripped plain_builtins n |}.
Proof.
  split; [reflexivity|].
  apply (clean_total_on_iterable_fields plain_builtins q3_object).
  reflexivity.
Defined.

Lemma clean_invariants_on_q3 :
  _clean_minutes plain_builtins (PyDict q3_object) = Ok q3_record
  /\ let source :=
       strip (py_str plain_builtins
                (dict_get q3_object (lit "summary") (PyStr []))) in
     summary q3_record <> []
     /\ (source = [] -> summary q3_record = lit "No summary available.")
     /\ (source <> [] -> summary q3_record = source)
     /\ Forall (fun f =>
          Forall (fun e => strip e <> []) (snd f q3_record)
          /\ (exists items,
                py_iter (dict_get q3_object (fst f) (PyList [])) = Ok items
                /\ snd f q3_record = spec_clean_list plain_builtins items)
          /\ (missing q3_object (fst f) -> snd f q3_record = [])) list_fields.
Proof.
  split; [vm_compute; reflexivity|].
  apply (clean_invariants plain_builtins q3_object q3_record).
  vm_compute. reflexivity.
Defined.

Lemma clean_null_object :
  _clean_minutes plain_builtins (PyDict null_object) = Ok null_record
  /\ (dict_get null_object (lit "summary") (PyStr []) = PyNone ->
      summary null_record = lit "None")
  /\ Forall (fun f => forall xs ys,
       dict_get null_object (fst f) (PyList []) = PyList (xs ++ PyNone :: ys) ->
       snd f null_record
       = stripped plain_builtins xs ++ lit "None" :: stripped plain_builtins ys)
       list_fields.
Proof.
  split; [vm_compute; reflexivity|].
  apply (clean_null_becomes_None plain_builtins null_object null_record).
  vm_compute. reflexivity.
Defined.

Lemma failed_call_offline :
  model (self configured) = Some flash
  /\ call_fails plain_builtins offline flash (lit "Ana: hello") unreachable
  /\ exists msg,
       generate_meeting_minutes plain_builtins offline (lit "Ana: hello")
         configured
       = (Ok {| summary :=
                  lit "Could not automatically generate minutes. Manual review required.";
                participants := [];
                discussion_points := [];
                outcomes_or_decisions := [];
                next_steps := [] |},
          with_last_error (sent configured (full_prompt (lit "Ana: hello"))) msg)
       /\ msg <> []
       /\ startswith (lit "API call failed: " ++ exn_str unreachable) msg = true
       /\ contains (lit "API call failed") msg = true.
Proof.
  assert (Hf : call_fails plain_builtins offline flash (lit "Ana: hello")
                 unreachable) by (apply call_raises; reflexivity).
  split; [reflexivity|]. split; [exact Hf|].
  exact (generate_failure_gives_fallback plain_builtins offline
           (lit "Ana: hello") configured flash unreachable eq_refl Hf).
Defined.

Lemma unconfigured_call :
  model (self unconfigured) = None
  /\ generate_meeting_minutes plain_builtins offline [] unconfigured
     = (Ok {| summary :=
                lit "Could not automatically generate minutes. Manual review required.";
              participants := [];
              discussion_points := [];
              outcomes_or_decisions := [];
              next_steps := [] |},
        unconfigured).
Proof.
  split; [reflexivity|].
  exact (generate_unconfigured_gives_fallback plain_builtins offline []
           unconfigured eq_refl).
Defined.

Lemma construct_without_key :
  (@None pystr = None /\ getenv offline (lit "GOOGLE_API_KEY") = None)
  /\ __init__ offline None configured = (Ok tt, unconfigured).
Proof.
  split; [split; reflexivity|].
  exact (proj1 (proj2 (construct_and_test_connection offline None configured))
           eq_refl eq_refl).
Defined.

Lemma success_after_failure :
  model (self configured) = Some flash
  /\ attempt_outcome plain_builtins (answers (lit "{}") (PyDict [])) flash
       (lit "Leo: bye") = Ok empty_record
  /\ call_fails plain_builtins offline flash (lit "Ana: hello") unreachable
  /\ let st1 :=
       snd (generate_meeting_minutes plain_builtins offline (lit "Ana: hello")
              configured) in
     exists msg,
       last_error (self st1) = Some msg
       /\ startswith (lit "API call failed: " ++ exn_str unreachable) msg = true
       /\ fst (generate_meeting_minutes plain_builtins
                 (answers (lit "{}") (PyDict [])) (lit "Leo: bye") st1)
          = Ok empty_record
       /\ last_error
            (self (snd (generate_meeting_minutes plain_builtins
                          (answers (lit "{}") (PyDict [])) (lit "Leo: bye") st1)))
          = Some msg.
Proof.
  assert (Hf : call_fails plain_builtins offline flash (lit "Ana: hello")
                 unreachable) by (apply call_raises; reflexivity).
  assert (Hok : attempt_outcome plain_builtins (answers (lit "{}") (PyDict []))
                  flash (lit "Leo: bye") = Ok empty_record)
    by (vm_compute; reflexivity).
  split; [reflexivity|]. split; [exact Hok|]. split; [exact Hf|].
  exact (proj2 (proj2 (generate_success_keeps_last_error plain_builtins
                  (answers (lit "{}") (PyDict [])) (lit "Leo: bye") configured
                  flash empty_record eq_refl Hok))
           offline (lit "Ana: hello") unreachable Hf).
Defined.

(** C7 as stated fails: a record generated without any failure, whose
    summary is not the fallback literal, is reported as a failure. *)
Lemma failure_test_is_not_equality :
  generate_meeting_minutes plain_builtins
    (answers quoting_body quoting_object) (lit "Ana: hello") configured
  = (Ok quoting_record, sent configured (full_prompt (lit "Ana: hello")))
  /\ generation_failed quoting_record = true
  /\ eqb (summary quoting_record)
       (lit "Could not automatically generate minutes. Manual review required.")
     = false.
Proof. vm_compute. repeat split. Qed.

Lemma fallback_is_reported :
  summary _create_fallback_minutes
  = lit "Could not automatically generate minutes. Manual review required."
  /\ generation_failed _create_fallback_minutes = true.
Proof.
  split; [reflexivity|].
  exact (proj1 (proj2 (proj2 (failure_is_substring_test
                                _create_fallback_minutes))) eq_refl).
Defined.

(** * Further properties *)

(** ** Trimming *)

Lemma lstrip_nil_iff (s : pystr) :
  lstrip s = [] <-> forallb isspace s = true.
Proof.
  induction s as [|c s IH]; simpl; [tauto|].
  destruct (isspace c); simpl; [exact IH|]. split; discriminate.
Qed.

Lemma strip_nil_iff (s : pystr) :
  strip s = [] <-> forallb isspace s = true.
Proof.
  rewrite <- lstrip_nil_iff. unfold strip.
  destruct (lstrip_head s) as [E | (c & t & E & Hc)]; rewrite E.
  - tauto.
  - rewrite (rstrip_cons c t Hc). split; discriminate.
Qed.

Lemma strip_head_nonspace (s : pystr) (c : N) (t : pystr) :
  strip s = c :: t -> isspace c = false.
Proof.
  unfold strip.
  destruct (lstrip_head s) as [E | (c' & t' & E & Hc)]; rewrite E.
  - discriminate.
  - rewrite (rstrip_cons c' t' Hc). now intros [= <- _].
Qed.

Lemma strip_last_nonspace (s : pystr) (a : pystr) (c : N) :
  strip s = a ++ [c] -> isspace c = false.
Proof.
  unfold strip, rstrip. intros H.
  apply (f_equal (@rev N)) in H.
  rewrite rev_involutive, rev_app_distr in H. cbn [rev app] in H.
  destruct (lstrip_head (rev (lstrip s))) as [E | (c' & t' & E & Hc)];
    rewrite E in H; [discriminate|].
  now injection H as -> _.
Qed.

Lemma trimmed_strip (s : pystr) : strip s <> [] -> trimmed (strip s).
Proof. intros H. split; [apply strip_idem | exact H]. Qed.

(** ** Cleaning again *)

Lemma clean_non_object (py : Builtins) (v : pyval) :
  is_object v = false -> _clean_minutes py v = Raise (AttributeError_get v).
Proof. destruct v; try reflexivity. discriminate. Qed.

Lemma clean_ok_object (py : Builtins) (v : pyval) (r : MinutesRecord) :
  _clean_minutes py v = Ok r -> exists d, v = PyDict d.
Proof.
  destruct v as [| | | | | |d]; try discriminate. intros _. now exists d.
Qed.

Lemma stripped_trimmed (py : Builtins) (items : list pyval) :
  Forall trimmed (stripped py items).
Proof.
  unfold stripped. apply Forall_forall. intros e He.
  apply in_map_iff in He as (p & <- & Hp).
  apply filter_In in Hp as [_ Hp].
  apply trimmed_strip. now apply truthy_nonempty.
Qed.

Lemma clean_well_formed (py : Builtins) (v : pyval) (r : MinutesRecord) :
  _clean_minutes py v = Ok r -> well_formed r.
Proof.
  intros H. destruct (clean_ok_object py v r H) as [d ->].
  apply clean_object_inv in H as [Hs Hl]. split.
  - rewrite Hs. unfold or_else.
    destruct (truthy (strip (py_str py (dict_get d (lit "summary") (PyStr [])))))
      eqn:E.
    + apply trimmed_strip. now apply truthy_nonempty.
    + split; [vm_compute; reflexivity | discriminate].
  - eapply Forall_impl; [| exact Hl].
    intros f (items & _ & ->). apply stripped_trimmed.
Qed.

Lemma fallback_well_formed : well_formed _create_fallback_minutes.
Proof.
  split; [split; [vm_compute; reflexivity | discriminate]|].
  repeat constructor.
Qed.

Lemma stripped_of_trimmed (py : Builtins) (l : list pystr) :
  Forall trimmed l -> stripped py (map PyStr l) = l.
Proof.
  unfold stripped. induction 1 as [|e l [He Hn] _ IH]; [reflexivity|].
  cbn [map filter py_str]. rewrite He.
  apply truthy_nonempty in Hn. rewrite Hn. cbn [map py_str].
  now rewrite He, IH.
Qed.

Lemma clean_as_object (py : Builtins) (r : MinutesRecord) :
  well_formed r -> _clean_minutes py (as_object r) = Ok r.
Proof.
  intros [[Hs Hn] Hl]. unfold as_object. rewrite clean_object.
  unfold list_fields in Hl.
  inversion_clear Hl as [|? ? Hp Hl1]. inversion_clear Hl1 as [|? ? Ht Hl2].
  inversion_clear Hl2 as [|? ? Ho Hl3]. inversion_clear Hl3 as [|? ? Hx _].
  cbn [snd] in Hp, Ht, Ho, Hx.
  change (dict_get _ (lit "participants") (PyList []))
    with (PyList (map PyStr (participants r))).
  change (dict_get _ (lit "discussion_points") (PyList []))
    with (PyList (map PyStr (discussion_points r))).
  change (dict_get _ (lit "outcomes_or_decisions") (PyList []))
    with (PyList (map PyStr (outcomes_or_decisions r))).
  change (dict_get _ (lit "next_steps") (PyList []))
    with (PyList (map PyStr (next_steps r))).
  change (dict_get _ (lit "summary") (PyStr [])) with (PyStr (summary r)).
  unfold stripped_items. cbn [py_iter bind py_str].
  rewrite !stripped_of_trimmed by assumption.
  rewrite Hs. unfold or_else. apply truthy_nonempty in Hn. rewrite Hn.
  now destruct r.
Qed.

(** X1.  Cleaning is idempotent: the dict [_clean_minutes] returns, given
    to [_clean_minutes] again, comes back unchanged. *)
Theorem clean_idempotent (py : Builtins) (v : pyval) (r : MinutesRecord) :
  _clean_minutes py v = Ok r -> _clean_minutes py (as_object r) = Ok r.
Proof. intros H. apply clean_as_object. exact (clean_well_formed py v r H). Qed.

(** X2.  Every text of a cleaned record is stored trimmed: the summary and
    every list entry are non-empty, start with a character that is not
    whitespace and end with one. *)
Theorem clean_stores_trimmed_text (py : Builtins) (v : pyval)
    (r : MinutesRecord) :
  _clean_minutes py v = Ok r ->
  forall e,
    e = summary r \/ Exists (fun f => In e (snd f r)) list_fields ->
    e <> []
    /\ strip e = e
    /\ (forall c t, e = c :: t -> isspace c = false)
    /\ (forall a c, e = a ++ [c] -> isspace c = false).
Proof.
  intros H e He. apply clean_well_formed in H as [Hs Hl].
  assert (Ht : trimmed e).
  { destruct He as [-> | He]; [exact Hs|].
    apply Exists_exists in He as (f & Hf & Hin).
    rewrite Forall_forall in Hl. specialize (Hl f Hf).
    rewrite Forall_forall in Hl. now apply Hl. }
  destruct Ht as [Hfix Hne]. repeat split; try assumption.
  - intros c t E. apply (strip_head_nonspace e c t). now rewrite Hfix.
  - intros a c E. apply (strip_last_nonspace e a c). now rewrite Hfix.
Qed.

Lemma dict_get_skip (d1 d2 : list (pystr * pyval)) (k key : pystr)
    (v default : pyval) :
  eqb k key = false ->
  dict_get (d1 ++ (k, v) :: d2) key default = dict_get (d1 ++ d2) key default.
Proof.
  intros E. induction d1 as [|[k' v'] d1 IH]; simpl.
  - now rewrite E.
  - now rewrite IH.
Qed.

(** X3.  A key other than the five that are read changes nothing: with or
    without its binding, wherever it sits in the object, [_clean_minutes]
    gives the same result. *)
Theorem clean_ignores_other_keys (py : Builtins)
    (d1 d2 : list (pystr * pyval)) (k : pystr) (v : pyval) :
  existsb (eqb k) clean_keys = false ->
  _clean_minutes py (PyDict (d1 ++ (k, v) :: d2))
  = _clean_minutes py (PyDict (d1 ++ d2)).
Proof.
  unfold clean_keys, list_fields. cbn [existsb map fst].
  rewrite !orb_false_iff. intros (Hs & Hp & Ht & Ho & Hn & _).
  rewrite !clean_object.
  now rewrite !(dict_get_skip d1 d2 k _ v _) by assumption.
Qed.

(** ** The client again *)

(** The inner [try] appends the diagnostic suffix of the response. *)
Lemma diagnostics_exact (response : option genai.Response) (st : Run)
    (msg : pystr) :
  last_error (self st) = Some msg ->
  Method.try_except (diagnostics response) (fun _ => Method.ret tt) st
  = (Ok tt, with_last_error st (msg ++ diagnostic_suffix response)).
Proof.
  destruct st as [[m le] reqs]. cbn [self last_error]. intros ->.
  unfold diagnostics, iadd_last_error, Method.try_except, Method.bind,
    Method.lift, Method.get_last_error, Method.set_last_error, Method.ret,
    with_last_error, diagnostic_suffix.
  cbn [self last_error model requests].
  destruct (first_finish_reason response) as [fr|e1]; cbn [bind].
  2:{ now rewrite app_nil_r. }
  destruct (genai.name fr) as [n|e2]; cbn [bind self last_error model requests].
  2:{ now rewrite app_nil_r. }
  destruct (first_safety_ratings response) as [sr|e3];
    cbn [bind self last_error model requests].
  - now rewrite <- !app_assoc.
  - now rewrite app_nil_r.
Qed.

(** A failed call on a configured client, to the letter. *)
Lemma generate_failure_exact (py : Builtins) (env : Env) (transcript : pystr)
    (st : Run) (handle : genai.GenerativeModel) (e : exn) :
  model (self st) = Some handle ->
  attempt_outcome py env handle transcript = Raise e ->
  generate_meeting_minutes py env transcript st
  = (Ok _create_fallback_minutes,
     with_last_error (sent st (full_prompt transcript))
       (lit "API call failed: " ++ exn_str e
        ++ diagnostic_suffix
             (response_of
                (generate_content env handle (full_prompt transcript))))).
Proof.
  intros Hm.
  assert (Hfail : forall response e',
      Method.bind
        (Method.set_last_error (Some (lit "API call failed: " ++ exn_str e')))
        (fun _ =>
           Method.bind
             (Method.try_except (diagnostics response) (fun _ => Method.ret tt))
             (fun _ => Method.ret _create_fallback_minutes))
        (sent st (full_prompt transcript))
      = (Ok _create_fallback_minutes,
         with_last_error (sent st (full_prompt transcript))
           (lit "API call failed: " ++ exn_str e'
            ++ diagnostic_suffix response))).
  { intros response e'. unfold Method.bind at 1. cbn [Method.set_last_error].
    match goal with |- context [Method.bind _ _ ?s] => set (st1 := s) end.
    unfold Method.bind.
    rewrite (diagnostics_exact response st1
               (lit "API call failed: " ++ exn_str e') eq_refl).
    cbn [Method.ret]. unfold with_last_error, st1. cbn [self model requests].
    now rewrite <- app_assoc. }
  unfold attempt_outcome.
  destruct (generate_content env handle (full_prompt transcript))
    as [r|e1] eqn:Hc; cbn [bind response_of].
  { assert (Hg : generate_meeting_minutes py env transcript st
                 = Method.try_except
                     (Method.lift
                        (body <- genai.text r ;;
                         minutes <- json_loads env body ;;
                         _clean_minutes py minutes)%except)
                     (fun e' =>
                        Method.bind
                          (Method.set_last_error
                             (Some (lit "API call failed: " ++ exn_str e')))
                          (fun _ =>
                             Method.bind
                               (Method.try_except (diagnostics (Some r))
                                  (fun _ => Method.ret tt))
                               (fun _ => Method.ret _create_fallback_minutes)))
                     (sent st (full_prompt transcript))).
    { unfold generate_meeting_minutes, Method.bind at 1.
      cbn [Method.get_model]. rewrite Hm.
      unfold Method.bind at 1, Method.attempt, Method.call_generate_content.
      rewrite Hc. fold (sent st (full_prompt transcript)).
      unfold Method.try_except, Method.lift. unfold Method.bind at 1 2 3.
      destruct (genai.text r) as [body|]; cbn [bind]; [|reflexivity].
      destruct (json_loads env body) as [minutes|]; cbn [bind]; reflexivity. }
    rewrite Hg. unfold Method.try_except at 1, Method.lift.
    destruct (genai.text r) as [body|e2]; cbn [bind].
    2:{ intros [= <-]. apply Hfail. }
    destruct (json_loads env body) as [minutes|e3]; cbn [bind].
    2:{ intros [= <-]. apply Hfail. }
    destruct (_clean_minutes py minutes) as [rec|e4]; [discriminate|].
    intros [= <-]. apply Hfail. }
  intros [= <-]. rewrite <- (Hfail None e1).
  unfold generate_meeting_minutes, Method.bind at 1.
  cbn [Method.get_model]. rewrite Hm.
  unfold Method.bind at 1, Method.attempt, Method.call_generate_content.
  rewrite Hc. reflexivity.
Qed.

(** X4.  A body that is JSON but not an object (an array, a text, a
    number, null) is a failure like any other: the fallback record comes
    back and [last_error] names the missing [get] of the decoded value,
    followed by the diagnostics of the response. *)
Theorem generate_rejects_non_object (py : Builtins) (env : Env)
    (transcript : pystr) (st : Run) (handle : genai.GenerativeModel)
    (r : genai.Response) (body : pystr) (v : pyval) :
  model (self st) = Some handle ->
  generate_content env handle (full_prompt transcript) = Ok r ->
  genai.text r = Ok body ->
  json_loads env body = Ok v ->
  is_object v = false ->
  generate_meeting_minutes py env transcript st
  = (Ok _create_fallback_minutes,
     with_last_error (sent st (full_prompt transcript))
       (lit "API call failed: '" ++ lit (type_name v)
        ++ lit "' object has no attribute 'get'"
        ++ diagnostic_suffix (Some r))).
Proof.
  intros Hm Hc Ht Hj Hv.
  assert (Ho : attempt_outcome py env handle transcript
               = Raise (AttributeError_get v)).
  { unfold attempt_outcome. rewrite Hc. cbn [bind]. rewrite Ht. cbn [bind].
    rewrite Hj. cbn [bind]. now apply clean_non_object. }
  rewrite (generate_failure_exact py env transcript st handle _ Hm Ho), Hc.
  cbn [response_of AttributeError_get exn_str].
  do 2 f_equal.
  change (lit "API call failed: '") with (lit "API call failed: " ++ lit "'").
  now rewrite <- !app_assoc.
Qed.

Lemma attempt_outcome_cleaned (py : Builtins) (env : Env)
    (handle : genai.GenerativeModel) (transcript : pystr) (r : MinutesRecord) :
  attempt_outcome py env handle transcript = Ok r ->
  exists v, _clean_minutes py v = Ok r.
Proof.
  unfold attempt_outcome.
  destruct (generate_content env handle (full_prompt transcript)) as [a|];
    cbn [bind]; [|discriminate].
  destruct (genai.text a) as [body|]; cbn [bind]; [|discriminate].
  destruct (json_loads env body) as [v|]; cbn [bind]; [|discriminate].
  intros H. now exists v.
Qed.

(** Every call, in one equation. *)
Lemma generate_cases (py : Builtins) (env : Env) (transcript : pystr)
    (st : Run) :
  generate_meeting_minutes py env transcript st
  = match model (self st) with
    | None => (Ok _create_fallback_minutes, st)
    | Some handle =>
        match attempt_outcome py env handle transcript with
        | Ok r => (Ok r, sent st (full_prompt transcript))
        | Raise e =>
            (Ok _create_fallback_minutes,
             with_last_error (sent st (full_prompt transcript))
               (lit "API call failed: " ++ exn_str e
                ++ diagnostic_suffix
                     (response_of
                        (generate_content env handle (full_prompt transcript)))))
        end
    end.
Proof.
  destruct (model (self st)) as [handle|] eqn:Hm.
  - destruct (attempt_outcome py env handle transcript) as [r|e] eqn:Ho.
    + pose proof (generate_configured py env transcript st handle Hm) as H.
      now rewrite Ho in H.
    + now apply generate_failure_exact.
  - now apply generate_unconfigured.
Qed.

(** X5.  [generate_meeting_minutes] returns normally in every state and
    every surroundings, and what it returns is the fallback record or a
    cleaned one: in both cases a record whose summary and list entries are
    trimmed and not empty. *)
Theorem generate_returns_well_formed (py : Builtins) (env : Env)
    (transcript : pystr) (st : Run) :
  exists r,
    fst (generate_meeting_minutes py env transcript st) = Ok r
    /\ (r = _create_fallback_minutes \/ exists v, _clean_minutes py v = Ok r)
    /\ trimmed (summary r)
    /\ Forall (fun f => Forall trimmed (snd f r)) list_fields.
Proof.
  rewrite generate_cases.
  destruct (model (self st)) as [handle|].
  - destruct (attempt_outcome py env handle transcript) as [r|e] eqn:Ho.
    + destruct (attempt_outcome_cleaned py env handle transcript r Ho)
        as [v Hv].
      exists r. split; [reflexivity|]. split; [right; now exists v|].
      exact (clean_well_formed py v r Hv).
    + exists _create_fallback_minutes. split; [reflexivity|].
      split; [now left | exact fallback_well_formed].
  - exists _create_fallback_minutes. split; [reflexivity|].
    split; [now left | exact fallback_well_formed].
Qed.

(** X6.  A call sends exactly one request when the client has a handle and
    none when it has not; the request is the fixed instructions followed by
    the transcript as given, so distinct transcripts give distinct
    requests; and the handle is never changed. *)
Theorem generate_sends_one_request (py : Builtins) (env : Env)
    (transcript : pystr) (st : Run) :
  requests (snd (generate_meeting_minutes py env transcript st))
  = requests st
    ++ match model (self st) with
       | Some _ => [full_prompt transcript]
       | None => []
       end
  /\ model (self (snd (generate_meeting_minutes py env transcript st)))
     = model (self st)
  /\ full_prompt transcript = full_prompt [] ++ transcript
  /\ (forall other, full_prompt other = full_prompt transcript ->
                    other = transcript).
Proof.
  split; [| split; [apply generate_keeps_model | split]].
  - rewrite generate_cases. destruct (model (self st)) as [handle|].
    + now destruct (attempt_outcome py env handle transcript).
    + cbn [snd]. now rewrite app_nil_r.
  - unfold full_prompt. now rewrite app_nil_r, <- !app_assoc.
  - unfold full_prompt. intros other H.
    repeat (apply app_inv_head in H). exact H.
Qed.

(** X7.  When the call itself raises there is no response to examine, and
    [last_error] is exactly [API call failed: ] followed by the text of the
    exception. *)
Theorem failure_message_when_call_raises (py : Builtins) (env : Env)
    (transcript : pystr) (st : Run) (handle : genai.GenerativeModel)
    (e : exn) :
  model (self st) = Some handle ->
  generate_content env handle (full_prompt transcript) = Raise e ->
  last_error (self (snd (generate_meeting_minutes py env transcript st)))
  = Some (lit "API call failed: " ++ exn_str e).
Proof.
  intros Hm Hc.
  assert (Ho : attempt_outcome py env handle transcript = Raise e).
  { unfold attempt_outcome. now rewrite Hc. }
  rewrite (generate_failure_exact py env transcript st handle e Hm Ho), Hc.
  cbn [snd response_of diagnostic_suffix first_finish_reason with_last_error
       self last_error].
  now rewrite app_nil_r.
Qed.

(** X8.  When the answer arrived but its text is blocked, [last_error]
    carries, after the text of the exception, the finish reason and the
    safety ratings of the first candidate. *)
Theorem failure_message_when_blocked (py : Builtins) (env : Env)
    (transcript : pystr) (st : Run) (handle : genai.GenerativeModel)
    (e : exn) (r : genai.Response) (c : genai.Candidate)
    (cs : list genai.Candidate) (fr : genai.FinishReason) (n sr : pystr) :
  model (self st) = Some handle ->
  generate_content env handle (full_prompt transcript) = Ok r ->
  genai.text r = Raise e ->
  genai.candidates r = Ok (c :: cs) ->
  genai.finish_reason c = Ok fr ->
  genai.name fr = Ok n ->
  genai.safety_ratings c = Ok sr ->
  last_error (self (snd (generate_meeting_minutes py env transcript st)))
  = Some (lit "API call failed: " ++ exn_str e
          ++ lit " | Finish Reason: " ++ n
          ++ lit " | Safety Ratings: " ++ sr).
Proof.
  intros Hm Hc Ht Hcs Hf Hn Hs.
  assert (Ho : attempt_outcome py env handle transcript = Raise e).
  { unfold attempt_outcome. rewrite Hc. cbn [bind]. now rewrite Ht. }
  rewrite (generate_failure_exact py env transcript st handle e Hm Ho), Hc.
  cbn [snd response_of with_last_error self last_error].
  unfold diagnostic_suffix, first_finish_reason, first_safety_ratings.
  rewrite Hcs. cbn [bind]. rewrite Hf, Hn, Hs. reflexivity.
Qed.

(** X9.  A failed call replaces [last_error]: the message it leaves does
    not depend on the message, or the requests, that were there before. *)
Theorem failure_replaces_last_error (py : Builtins) (env : Env)
    (transcript : pystr) (st st' : Run) (handle : genai.GenerativeModel)
    (e : exn) :
  model (self st) = Some handle ->
  model (self st') = Some handle ->
  call_fails py env handle transcript e ->
  last_error (self (snd (generate_meeting_minutes py env transcript st)))
  = last_error (self (snd (generate_meeting_minutes py env transcript st'))).
Proof.
  intros Hm Hm' Hf. apply call_fails_outcome in Hf.
  now rewrite (generate_failure_exact py env transcript st handle e Hm Hf),
    (generate_failure_exact py env transcript st' handle e Hm' Hf).
Qed.

(** X10.  [test_connection] answers the same before and after any call of
    [generate_meeting_minutes]: a failed call does not show in it. *)
Theorem test_connection_ignores_calls (py : Builtins) (env : Env)
    (transcript : pystr) (st : Run) :
  fst (test_connection (snd (generate_meeting_minutes py env transcript st)))
  = fst (test_connection st).
Proof.
  unfold test_connection, Method.bind. cbn [Method.get_model].
  rewrite generate_keeps_model.
  destruct (model (self st)) eqn:Hm; [reflexivity|].
  now rewrite (generate_unconfigured py env transcript st Hm).
Qed.

(** ** The constructor again *)

(** The constructor, by the key it resolves and what the library says. *)
Lemma init_cases (env : Env) (api_key : option pystr) (st : Run) :
  __init__ env api_key st
  = (Ok tt,
     {| self :=
          match opt_or api_key (getenv env (lit "GOOGLE_API_KEY")) with
          | Some (c :: k) =>
              match (_ <- configure env (c :: k) ;;
                     GenerativeModel env (lit "gemini-1.5-flash")
                       (lit "application/json"))%except with
              | Ok m => {| model := Some m; last_error := None |}
              | Raise e =>
                  {| model := None;
                     last_error :=
                       Some (lit "Failed to configure Gemini client: "
                             ++ exn_str e) |}
              end
          | _ =>
              {| model := None;
                 last_error :=
                   Some (lit "GOOGLE_API_KEY is missing or not provided.") |}
          end;
        requests := requests st |}).
Proof.
  unfold __init__, Method.bind, Method.try_except, Method.lift.
  cbn [Method.set_model Method.set_last_error self model last_error requests].
  destruct (opt_or api_key (getenv env (lit "GOOGLE_API_KEY")))
    as [[|c k]|]; try reflexivity.
  destruct (configure env (c :: k)) as [[]|e1]; cbn [bind]; [|reflexivity].
  destruct (GenerativeModel env (lit "gemini-1.5-flash")
              (lit "application/json")) as [m|e2]; reflexivity.
Qed.

(** X11.  After the constructor the client has either a handle and no
    error, or no handle and a non-empty error; [test_connection] then
    answers true with its fixed message, or false with that error, never
    with its stock message. *)
Theorem init_leaves_handle_or_error (env : Env) (api_key : option pystr)
    (st : Run) :
  let st' := snd (__init__ env api_key st) in
  match model (self st') with
  | Some _ =>
      last_error (self st') = None
      /\ fst (test_connection st')
         = Ok (true, lit "Gemini client configured successfully.")
  | None =>
      exists msg,
        last_error (self st') = Some msg
        /\ msg <> []
        /\ fst (test_connection st') = Ok (false, msg)
  end.
Proof.
  rewrite init_cases. cbn [snd self].
  destruct (opt_or api_key (getenv env (lit "GOOGLE_API_KEY")))
    as [[|c k]|].
  - eexists. repeat split. discriminate.
  - destruct (_ <- configure env (c :: k) ;;
              GenerativeModel env (lit "gemini-1.5-flash")
                (lit "application/json"))%except as [m|e]; cbn [model].
    + split; reflexivity.
    + eexists. repeat split. discriminate.
  - eexists. repeat split. discriminate.
Qed.

(** X12.  How the key is resolved: an empty key argument counts as none;
    without an argument the value of the environment is used as if it had
    been passed; and with a non-empty argument the environment is not
    consulted, so two surroundings whose library answers alike for that
    key construct the same client. *)
Theorem init_key_resolution (env : Env) (st : Run) :
  __init__ env (Some []) st = __init__ env None st
  /\ (forall k, getenv env (lit "GOOGLE_API_KEY") = Some k ->
                __init__ env None st = __init__ env (Some k) st)
  /\ (forall env' c k,
        configure env' (c :: k) = configure env (c :: k) ->
        GenerativeModel env' (lit "gemini-1.5-flash") (lit "application/json")
        = GenerativeModel env (lit "gemini-1.5-flash") (lit "application/json") ->
        __init__ env' (Some (c :: k)) st = __init__ env (Some (c :: k)) st).
Proof.
  split; [reflexivity|]. split.
  - intros k Hk. rewrite !init_cases. cbn [opt_or]. rewrite Hk.
    now destruct k.
  - intros env' c k Hc Hg. rewrite !init_cases. cbn [opt_or].
    now rewrite Hc, Hg.
Qed.

(** X13.  With a key to use, the constructor configures the library with
    that key and asks for the model; if both succeed the handle is the
    model and [last_error] is null, and if either raises there is no handle
    and [last_error] is [Failed to configure Gemini client: ] followed by
    the text of the exception. *)
Theorem init_with_key (env : Env) (api_key : option pystr) (st : Run)
    (c : N) (k : pystr) :
  opt_or api_key (getenv env (lit "GOOGLE_API_KEY")) = Some (c :: k) ->
  __init__ env api_key st
  = (Ok tt,
     {| self :=
          match configure env (c :: k) with
          | Raise e =>
              {| model := None;
                 last_error :=
                   Some (lit "Failed to configure Gemini client: "
                         ++ exn_str e) |}
          | Ok _ =>
              match GenerativeModel env (lit "gemini-1.5-flash")
                      (lit "application/json") with
              | Raise e =>
                  {| model := None;
                     last_error :=
                       Some (lit "Failed to configure Gemini client: "
                             ++ exn_str e) |}
              | Ok m => {| model := Some m; last_error := None |}
              end
          end;
        requests := requests st |}).
Proof.
  intros Hk. rewrite init_cases, Hk.
  destruct (configure env (c :: k)) as [[]|e]; cbn [bind]; reflexivity.
Qed.

(** ** The export again *)

Lemma startswith_refl (s : pystr) : startswith s s = true.
Proof. rewrite <- (app_nil_r s) at 2. apply startswith_app. Qed.

Lemma join_startswith (sep x : pystr) (rest : list pystr) :
  startswith x (join sep (x :: rest)) = true.
Proof.
  cbn [join]. destruct rest; [apply startswith_refl | apply startswith_app].
Qed.

Lemma spec_prose_nil (header body : pystr) :
  spec_prose header body = [] <-> body = [].
Proof. destruct body; simpl; split; congruence. Qed.

Lemma spec_list_nil (header : pystr) (items : list pystr) :
  spec_list header items = [] <-> items = [].
Proof. destruct items; simpl; split; congruence. Qed.

Lemma join_sections_nil (sep : pystr) (l : list pystr) :
  Forall (fun x => x <> []) l -> join sep l = [] -> l = [].
Proof.
  intros Hl H. destruct l as [|x l]; [reflexivity|].
  inversion_clear Hl as [|? ? Hx _].
  now destruct (join_nil_inv sep x l Hx).
Qed.

Lemma spec_prose_nonempty (header body : pystr) :
  header <> [] -> Forall (fun x => x <> []) (spec_prose header body).
Proof.
  intros Hh. destruct body; constructor; [|constructor].
  destruct header; [congruence | discriminate].
Qed.

Lemma spec_list_nonempty (header : pystr) (items : list pystr) :
  header <> [] -> Forall (fun x => x <> []) (spec_list header items).
Proof.
  intros Hh. destruct items; constructor; [|constructor].
  destruct header; [congruence | discriminate].
Qed.

(** X14.  The export is the empty text only for a record whose five fields
    are all empty; and when the summary is not empty the export begins
    with the summary header, a newline and the summary. *)
Theorem markdown_empty_or_summary_first (r : MinutesRecord) :
  (format_minutes_as_markdown r = [] <->
   summary r = [] /\ participants r = [] /\ discussion_points r = []
   /\ outcomes_or_decisions r = [] /\ next_steps r = [])
  /\ (summary r <> [] ->
      startswith
        (lit "## " ++ [0x2728%N] ++ lit " Summary" ++ [10%N] ++ summary r)
        (format_minutes_as_markdown r) = true).
Proof.
  rewrite format_spec. unfold spec_markdown. split.
  - split.
    + intros H. apply join_sections_nil in H.
      * apply app_eq_nil in H as [H1 H]. apply app_eq_nil in H as [H2 H].
        apply app_eq_nil in H as [H3 H]. apply app_eq_nil in H as [H4 H5].
        apply spec_prose_nil in H1.
        apply spec_list_nil in H2, H3, H4, H5. tauto.
      * repeat (apply Forall_app; split);
          (apply spec_prose_nonempty || apply spec_list_nonempty);
          discriminate.
    + intros (-> & -> & -> & -> & ->). reflexivity.
  - intros Hs. destruct (summary r) as [|c s]; [congruence|].
    cbn [spec_prose app].
    match goal with
    | |- startswith ?x (join ?sep (?y :: ?rest)) = true =>
        change x with y; apply join_startswith
    end.
Qed.

(** ** The file helpers again *)

Lemma all_page_texts_raises (pages : list PyPDF2.Page) (page : PyPDF2.Page)
    (e : exn) :
  In page pages -> PyPDF2.extract_text page = Raise e ->
  exists e', all_page_texts pages = Raise e'.
Proof.
  intros Hin He. induction pages as [|p rest IH]; [contradiction|].
  cbn [all_page_texts]. destruct Hin as [-> | Hin].
  - rewrite He. now exists e.
  - destruct (PyPDF2.extract_text p); cbn [bind]; [| eauto].
    destruct (IH Hin) as [e' ->]. now exists e'.
Qed.

Lemma extract_pdf_cases (env : Env) (f : file) :
  extract_text_from_pdf env f
  = Ok match (reader <- PdfReader env f ;;
              ps <- PyPDF2.pages reader ;;
              all_page_texts ps)%except with
       | Ok texts => join [10%N; 10%N] (filter truthy texts)
       | Raise _ => []
       end.
Proof.
  unfold extract_text_from_pdf.
  destruct (PdfReader env f) as [reader|e]; cbn [bind try_except];
    [|reflexivity].
  destruct (PyPDF2.pages reader) as [ps|e]; cbn [bind try_except];
    [|reflexivity].
  rewrite page_texts_spec.
  destruct (all_page_texts ps) as [ts|e]; reflexivity.
Qed.

Lemma extract_docx_cases (env : Env) (f : file) :
  extract_text_from_docx env f
  = Ok match (doc <- Document env f ;; docx.paragraphs doc)%except with
       | Ok ps =>
           join [10%N]
             (map docx.text
                (filter (fun p => truthy (strip (docx.text p))) ps))
       | Raise _ => []
       end.
Proof.
  unfold extract_text_from_docx.
  destruct (Document env f) as [doc|e]; cbn [bind try_except]; [|reflexivity].
  destruct (docx.paragraphs doc) as [ps|e]; reflexivity.
Qed.

(** X15.  One page that cannot be read loses the whole PDF: the helper
    returns the empty string even when other pages have text. *)
Theorem pdf_page_failure_discards_all (env : Env) (f : file)
    (reader : PyPDF2.PdfReader) (pages : list PyPDF2.Page)
    (page : PyPDF2.Page) (e : exn) :
  PdfReader env f = Ok reader ->
  PyPDF2.pages reader = Ok pages ->
  In page pages ->
  PyPDF2.extract_text page = Raise e ->
  extract_text_from_pdf env f = Ok [].
Proof.
  intros Hr Hp Hin He. rewrite extract_pdf_cases, Hr. cbn [bind].
  rewrite Hp. cbn [bind].
  now destruct (all_page_texts_raises pages page e Hin He) as [e' ->].
Qed.

Lemma filter_truthy_nil (texts : list pystr) :
  filter truthy texts = [] <-> Forall (fun t => t = []) texts.
Proof.
  induction texts as [|t texts IH]; simpl.
  - split; auto.
  - destruct t as [|c t]; simpl.
    + rewrite IH. split; intros H; [now constructor | now inversion H].
    + split; [discriminate|]. intros H. now inversion H.
Qed.

Lemma filter_truthy_nonempty (texts : list pystr) :
  Forall (fun t => t <> []) (filter truthy texts).
Proof.
  apply Forall_forall. intros t Ht. apply filter_In in Ht as [_ Ht].
  now apply truthy_nonempty.
Qed.

(** X16.  The helpers return the empty string in two situations only: a
    failure, or a file without text (for the PDF every page has empty
    text, for the document every paragraph is blank).  An empty result
    does not tell the two apart. *)
Theorem extraction_empty_iff_no_text (env : Env) (f : file) :
  (extract_text_from_pdf env f = Ok [] <->
   match (reader <- PdfReader env f ;;
          ps <- PyPDF2.pages reader ;;
          all_page_texts ps)%except with
   | Ok texts => Forall (fun t => t = []) texts
   | Raise _ => True
   end)
  /\ (extract_text_from_docx env f = Ok [] <->
      match (doc <- Document env f ;; docx.paragraphs doc)%except with
      | Ok ps => Forall (fun p => forallb isspace (docx.text p) = true) ps
      | Raise _ => True
      end).
Proof.
  split.
  - rewrite extract_pdf_cases.
    destruct (reader <- PdfReader env f ;;
              ps <- PyPDF2.pages reader ;;
              all_page_texts ps)%except as [texts|e]; [|tauto].
    rewrite <- filter_truthy_nil. split.
    + intros [= H]. apply (join_sections_nil [10%N; 10%N]); [|exact H].
      apply filter_truthy_nonempty.
    + now intros ->.
  - rewrite extract_docx_cases.
    destruct (doc <- Document env f ;; docx.paragraphs doc)%except
      as [ps|e]; [|tauto].
    split.
    + intros [= H]. apply join_sections_nil in H.
      * apply map_eq_nil in H. apply Forall_forall. intros p Hp.
        apply strip_nil_iff.
        destruct (strip (docx.text p)) eqn:E; [reflexivity|].
        assert (Hin : In p (filter (fun p => truthy (strip (docx.text p))) ps)).
        { apply filter_In. split; [exact Hp|]. now rewrite E. }
        rewrite H in Hin. contradiction.
      * apply Forall_forall. intros t Ht.
        apply in_map_iff in Ht as (p & <- & Hp).
        apply filter_In in Hp as [_ Hp]. intros E. rewrite E in Hp.
        discriminate.
    + intros H. f_equal.
      replace (filter (fun p => truthy (strip (docx.text p))) ps) with
        (@nil docx.Paragraph); [reflexivity|].
      symmetry. induction H as [|p ps Hp _ IH]; [reflexivity|].
      cbn [filter]. apply strip_nil_iff in Hp. now rewrite Hp.
Qed.

(** ** The front end *)

Lemma extract_pdf_ok (env : Env) (f : file) :
  exists s, extract_text_from_pdf env f = Ok s.
Proof. rewrite extract_pdf_cases. eauto. Qed.

Lemma extract_docx_ok (env : Env) (f : file) :
  exists s, extract_text_from_docx env f = Ok s.
Proof. rewrite extract_docx_cases. eauto. Qed.

Lemma read_upload_ok (env : Env) (decode : file -> pystr) (f : UploadedFile) :
  exists final, read_upload env decode f = Ok final.
Proof.
  unfold read_upload.
  destruct (eqb (upload_type f) (lit "text/plain")); [eauto|].
  destruct (eqb (upload_type f) (lit "application/pdf"));
    [apply extract_pdf_ok|].
  destruct (contains (lit "wordprocessingml") (upload_type f));
    [apply extract_docx_ok | eauto].
Qed.

(** X17.  The checks at the top of [main] never raise and send nothing.
    They end the run exactly when they show something; when they let the
    run go on, the environment holds a non-empty key and the client has a
    handle, so that every generation that follows sends its request; and
    on the first run of the process [last_error] is then null. *)
Theorem startup_gate (env : Env) (cached : bool) (st : Run) :
  exists shown stopped st',
    startup env cached st = (Ok (shown, stopped), st')
    /\ requests st' = requests st
    /\ (stopped = true <-> shown <> [])
    /\ (stopped = false ->
        (exists c k, getenv env (lit "GOOGLE_API_KEY") = Some (c :: k))
        /\ (exists handle, model (self st') = Some handle)
        /\ (cached = false -> last_error (self st') = None)
        /\ forall py transcript,
             requests (snd (generate_meeting_minutes py env transcript st'))
             = requests st' ++ [full_prompt transcript]).
Proof.
  unfold startup.
  destruct (getenv env (lit "GOOGLE_API_KEY")) as [[|c k]|] eqn:Hk;
    try (do 3 eexists; split; [reflexivity|];
         split; [reflexivity|]; split; [split; [discriminate | reflexivity]|];
         discriminate).
  assert (Hgo : forall st1, requests st1 = requests st ->
            (cached = false ->
             match model (self st1) with
             | Some _ => last_error (self st1) = None
             | None => True
             end) ->
            exists shown stopped,
              Method.bind test_connection
                (fun r =>
                   if fst r then Method.ret ([], false)
                   else
                     Method.ret
                       ([st_error
                           ([0x1F534%N]
                            ++ lit " Gemini client failed to initialize: "
                            ++ snd r)],
                        true)) st1
              = (Ok (shown, stopped), st1)
              /\ requests st1 = requests st
              /\ (stopped = true <-> shown <> [])
              /\ (stopped = false ->
                  (exists c' k', Some (c :: k) = Some (c' :: k'))
                  /\ (exists handle, model (self st1) = Some handle)
                  /\ (cached = false -> last_error (self st1) = None)
                  /\ forall py transcript,
                       requests
                         (snd (generate_meeting_minutes py env transcript st1))
                       = requests st1 ++ [full_prompt transcript])).
  { intros st1 Hr Hl. unfold test_connection, Method.bind.
    cbn [Method.get_model].
    destruct (model (self st1)) as [handle|] eqn:Hm; cbn [Method.ret fst].
    - exists [], false. split; [reflexivity|]. split; [exact Hr|].
      split; [split; [discriminate | congruence]|]. intros _.
      split; [now exists c, k|]. split; [now exists handle|].
      split; [exact Hl|]. intros py transcript.
      rewrite generate_cases, Hm.
      now destruct (attempt_outcome py env handle transcript).
    - cbn [Method.get_last_error]. do 2 eexists.
      split; [reflexivity|]. split; [exact Hr|].
      split; [split; [discriminate | reflexivity]|]. discriminate. }
  unfold Method.bind at 1, get_gemini_client. destruct cached.
  - cbn [Method.ret].
    destruct (Hgo st eq_refl) as (shown & stopped & H); [discriminate|].
    now exists shown, stopped, st.
  - rewrite init_cases.
    match goal with |- context [Method.bind _ _ ?s] => set (st1 := s) end.
    destruct (Hgo st1 eq_refl) as (shown & stopped & H).
    + intros _. unfold st1. cbn [self opt_or]. rewrite Hk.
      now destruct (_ <- configure env (c :: k) ;;
                    GenerativeModel env (lit "gemini-1.5-flash")
                      (lit "application/json"))%except.
    + now exists shown, stopped, st1.
Qed.

(** X18.  With an upload the step never raises and never reads the pasted
    text: what it shows and the transcript it yields are the same whatever
    was pasted. *)
Theorem upload_shadows_pasted_text (env : Env) (decode : file -> pystr)
    (f : UploadedFile) :
  exists shown final,
    read_upload env decode f = Ok final
    /\ forall pasted,
         read_transcript env decode (Some f) pasted = Ok (shown, final).
Proof.
  destruct (read_upload_ok env decode f) as [final Hf].
  unfold read_transcript. rewrite Hf. cbn [bind]. eauto.
Qed.

(** X19.  An uploaded PDF that cannot be opened leaves no transcript, even
    when a text was pasted beside it: the warning is shown and the button
    stays disabled. *)
Theorem unreadable_pdf_blanks_transcript (env : Env)
    (decode : file -> pystr) (f : UploadedFile) (pasted : pystr) (e : exn) :
  upload_type f = lit "application/pdf" ->
  PdfReader env (upload_bytes f) = Raise e ->
  read_transcript env decode (Some f) pasted
  = Ok ([ st_spinner (lit "Reading " ++ upload_name f ++ lit "...");
          st_warning
            ([0x26A0%N; 0xFE0F%N]
             ++ lit " Could not extract text from the uploaded file.") ],
        [])
  /\ button_disabled [] = true.
Proof.
  intros Ht Hr. split; [|reflexivity].
  unfold read_transcript, read_upload. rewrite Ht.
  change (eqb (lit "application/pdf") (lit "text/plain")) with false.
  rewrite eqb_refl. cbv iota.
  unfold extract_text_from_pdf. rewrite Hr. reflexivity.
Qed.

(** X20.  Without an upload the transcript is the pasted text trimmed,
    nothing is shown, and the button is disabled exactly when the pasted
    text is empty or all whitespace. *)
Theorem pasted_text_is_trimmed (env : Env) (decode : file -> pystr)
    (pasted : pystr) :
  read_transcript env decode None pasted = Ok ([], strip pasted)
  /\ strip (strip pasted) = strip pasted
  /\ (button_disabled (strip pasted) = true <->
      forallb isspace pasted = true).
Proof.
  split; [| split; [apply strip_idem|]].
  - unfold read_transcript. now destruct (strip pasted).
  - rewrite <- strip_nil_iff. unfold button_disabled.
    destruct (strip pasted); simpl; split; congruence.
Qed.

Lemma generate_ok (py : Builtins) (env : Env) (transcript : pystr) (st : Run) :
  exists r,
    generate_meeting_minutes py env transcript st
    = (Ok r, snd (generate_meeting_minutes py env transcript st))
    /\ well_formed r.
Proof.
  rewrite generate_cases. destruct (model (self st)) as [handle|].
  - destruct (attempt_outcome py env handle transcript) as [r|e] eqn:Ho.
    + exists r. split; [reflexivity|].
      destruct (attempt_outcome_cleaned py env handle transcript r Ho)
        as [v Hv].
      exact (clean_well_formed py v r Hv).
    + exists _create_fallback_minutes. split; [reflexivity|].
      exact fallback_well_formed.
  - exists _create_fallback_minutes. split; [reflexivity|].
    exact fallback_well_formed.
Qed.

(** X21.  The body of the button never raises and does nothing to the
    client beyond the call it makes.  It either keeps the session as it
    was or stores a new record that is well formed and that the front end
    does not report as a failure; so a session that held no reported
    record, the fallback record in particular, holds none afterwards. *)
Theorem on_generate_keeps_session_clean (py : Builtins) (env : Env)
    (final_transcript : pystr) (session : option MinutesRecord) (st : Run) :
  exists shown session',
    on_generate py env final_transcript session st
    = (Ok (shown, session'),
       snd (generate_meeting_minutes py env final_transcript st))
    /\ (session' = session
        \/ exists r, session' = Some r
                     /\ generation_failed r = false
                     /\ well_formed r)
    /\ (session_clean session ->
        session_clean session'
        /\ session' <> Some _create_fallback_minutes).
Proof.
  destruct (generate_ok py env final_transcript st) as (r & Hg & Hw).
  unfold on_generate, Method.bind at 1. rewrite Hg.
  destruct (generation_failed r) eqn:Hf.
  - unfold Method.bind, Method.get_last_error, Method.ret.
    do 2 eexists. split; [reflexivity|]. split; [now left|].
    intros Hc. split; [exact Hc|]. intros ->. discriminate.
  - unfold Method.ret. do 2 eexists. split; [reflexivity|].
    split; [right; now exists r|].
    intros _. split; [exact Hf|]. intros [= ->]. discriminate.
Qed.

(** X22.  After a call that failed, the body of the button shows the
    message the client recorded, [API call failed: ...] with the text of
    the exception and the diagnostics, and keeps the session as it was, so
    that earlier results stay on display. *)
Theorem on_generate_reports_failed_call (py : Builtins) (env : Env)
    (final_transcript : pystr) (session : option MinutesRecord) (st : Run)
    (handle : genai.GenerativeModel) (e : exn) :
  model (self st) = Some handle ->
  call_fails py env handle final_transcript e ->
  fst (on_generate py env final_transcript session st)
  = Ok ([ st_spinner
            ([0x1F9E0%N] ++ lit " Gemini is thinking... This may take a moment.");
          st_error
            ([0x1F534%N] ++ lit " Failed to generate minutes. Error: "
             ++ lit "API call failed: " ++ exn_str e
             ++ diagnostic_suffix
                  (response_of
                     (generate_content env handle
                        (full_prompt final_transcript)))) ],
        session).
Proof.
  intros Hm Hf. apply call_fails_outcome in Hf.
  unfold on_generate, Method.bind at 1.
  rewrite (generate_failure_exact py env final_transcript st handle e Hm Hf).
  change (generation_failed _create_fallback_minutes) with true. cbv iota.
  unfold Method.bind, Method.get_last_error, Method.ret, with_last_error.
  reflexivity.
Qed.

(** X23.  When the call succeeds but the cleaned summary contains the
    words of the failure test, the record is discarded: the session and
    the client stay as they were, and the error shown is whatever
    [last_error] held before the call, or the stock text when it was null
    or empty. *)
Theorem on_generate_false_alarm (py : Builtins) (env : Env)
    (final_transcript : pystr) (session : option MinutesRecord) (st : Run)
    (handle : genai.GenerativeModel) (r : MinutesRecord) :
  model (self st) = Some handle ->
  attempt_outcome py env handle final_transcript = Ok r ->
  generation_failed r = true ->
  on_generate py env final_transcript session st
  = (Ok ([ st_spinner
             ([0x1F9E0%N] ++ lit " Gemini is thinking... This may take a moment.");
           st_error
             ([0x1F534%N] ++ lit " Failed to generate minutes. Error: "
              ++ match last_error (self st) with
                 | Some (c :: s) => c :: s
                 | _ => lit "The AI could not process this transcript."
                 end) ],
         session),
     sent st (full_prompt final_transcript)).
Proof.
  intros Hm Ho Hf.
  pose proof (generate_configured py env final_transcript st handle Hm) as Hg.
  rewrite Ho in Hg.
  unfold on_generate, Method.bind at 1. rewrite Hg, Hf.
  reflexivity.
Qed.

(** * The further properties on the scenarios *)

Lemma clean_idempotent_on_q3 :
  _clean_minutes plain_builtins (PyDict q3_object) = Ok q3_record
  /\ _clean_minutes plain_builtins (as_object q3_record) = Ok q3_record.
Proof.
  assert (H : _clean_minutes plain_builtins (PyDict q3_object) = Ok q3_record)
    by (vm_compute; reflexivity).
  split; [exact H|].
  exact (clean_idempotent plain_builtins (PyDict q3_object) q3_record H).
Defined.

Lemma clean_stores_Leo_trimmed :
  _clean_minutes plain_builtins (PyDict q3_object) = Ok q3_record
  /\ (lit "Leo" = summary q3_record
      \/ Exists (fun f => In (lit "Leo") (snd f q3_record)) list_fields)
  /\ (lit "Leo" <> []
      /\ strip (lit "Leo") = lit "Leo"
      /\ (forall c t, lit "Leo" = c :: t -> isspace c = false)
      /\ (forall a c, lit "Leo" = a ++ [c] -> isspace c = false)).
Proof.
  assert (H : _clean_minutes plain_builtins (PyDict q3_object) = Ok q3_record)
    by (vm_compute; reflexivity).
  assert (He : lit "Leo" = summary q3_record
               \/ Exists (fun f => In (lit "Leo") (snd f q3_record)) list_fields).
  { right. apply Exists_cons_hd. right. left. reflexivity. }
  split; [exact H|]. split; [exact He|].
  exact (clean_stores_trimmed_text plain_builtins (PyDict q3_object) q3_record
           H (lit "Leo") He).
Defined.

Lemma clean_ignores_mood :
  existsb (eqb (lit "mood")) clean_keys = false
  /\ _clean_minutes plain_builtins
       (PyDict (firstn 3 q3_object ++ (lit "mood", PyBool true) :: []))
     = _clean_minutes plain_builtins (PyDict (firstn 3 q3_object ++ [])).
Proof.
  split; [reflexivity|].
  exact (clean_ignores_other_keys plain_builtins (firstn 3 q3_object) []
           (lit "mood") (PyBool true) eq_refl).
Defined.

Lemma array_answer_is_rejected :
  model (self configured) = Some flash
  /\ generate_content (answers (lit "[]") (PyList [])) flash
       (full_prompt (lit "Ana: hello")) = Ok array_answer
  /\ genai.text array_answer = Ok (lit "[]")
  /\ json_loads (answers (lit "[]") (PyList [])) (lit "[]") = Ok (PyList [])
  /\ is_object (PyList []) = false
  /\ generate_meeting_minutes plain_builtins (answers (lit "[]") (PyList []))
       (lit "Ana: hello") configured
     = (Ok _create_fallback_minutes,
        with_last_error (sent configured (full_prompt (lit "Ana: hello")))
          (lit "API call failed: '" ++ lit (type_name (PyList []))
           ++ lit "' object has no attribute 'get'"
           ++ diagnostic_suffix (Some array_answer))).
Proof.
  repeat (split; [reflexivity|]).
  exact (generate_rejects_non_object plain_builtins
           (answers (lit "[]") (PyList [])) (lit "Ana: hello") configured flash
           array_answer (lit "[]") (PyList [])
           eq_refl eq_refl eq_refl eq_refl eq_refl).
Defined.

Lemma offline_failure_message :
  model (self configured) = Some flash
  /\ generate_content offline flash (full_prompt (lit "Ana: hello"))
     = Raise unreachable
  /\ last_error
       (self (snd (generate_meeting_minutes plain_builtins offline
                     (lit "Ana: hello") configured)))
     = Some (lit "API call failed: " ++ exn_str unreachable).
Proof.
  repeat (split; [reflexivity|]).
  exact (failure_message_when_call_raises plain_builtins offline
           (lit "Ana: hello") configured flash unreachable eq_refl eq_refl).
Defined.

Lemma blocked_failure_message :
  model (self configured) = Some flash
  /\ generate_content blocks flash (full_prompt (lit "Ana: hello"))
     = Ok blocked_answer
  /\ genai.text blocked_answer
     = Raise (Exception "ValueError" (lit "response was blocked"))
  /\ last_error
       (self (snd (generate_meeting_minutes plain_builtins blocks
                     (lit "Ana: hello") configured)))
     = Some (lit "API call failed: " ++ lit "response was blocked"
             ++ lit " | Finish Reason: " ++ lit "SAFETY"
             ++ lit " | Safety Ratings: " ++ lit "[HARM_CATEGORY_HARASSMENT]").
Proof.
  repeat (split; [reflexivity|]).
  exact (failure_message_when_blocked plain_builtins blocks (lit "Ana: hello")
           configured flash
           (Exception "ValueError" (lit "response was blocked")) blocked_answer
           {| genai.finish_reason := Ok {| genai.name := Ok (lit "SAFETY") |};
              genai.safety_ratings := Ok (lit "[HARM_CATEGORY_HARASSMENT]") |}
           [] {| genai.name := Ok (lit "SAFETY") |} (lit "SAFETY")
           (lit "[HARM_CATEGORY_HARASSMENT]")
           eq_refl eq_refl eq_refl eq_refl eq_refl eq_refl eq_refl).
Defined.

Lemma second_failure_replaces_first :
  model (self configured) = Some flash
  /\ model (self failed_before) = Some flash
  /\ call_fails plain_builtins offline flash (lit "Ana: hello") unreachable
  /\ last_error
       (self (snd (generate_meeting_minutes plain_builtins offline
                     (lit "Ana: hello") configured)))
     = last_error
         (self (snd (generate_meeting_minutes plain_builtins offline
                       (lit "Ana: hello") failed_before))).
Proof.
  assert (Hf : call_fails plain_builtins offline flash (lit "Ana: hello")
                 unreachable) by (apply call_raises; reflexivity).
  split; [reflexivity|]. split; [reflexivity|]. split; [exact Hf|].
  exact (failure_replaces_last_error plain_builtins offline (lit "Ana: hello")
           configured failed_before flash unreachable eq_refl eq_refl Hf).
Defined.

Lemma refused_key_is_recorded :
  opt_or None (getenv refuses_key (lit "GOOGLE_API_KEY"))
  = Some (107%N :: lit "ey")
  /\ __init__ refuses_key None configured
     = (Ok tt,
        {| self :=
             {| model := None;
                last_error :=
                  Some (lit "Failed to configure Gemini client: invalid key") |};
           requests := [] |}).
Proof.
  split; [reflexivity|].
  exact (init_with_key refuses_key None configured 107%N (lit "ey") eq_refl).
Defined.

Lemma second_page_loses_the_pdf :
  PdfReader reads_files [] = Ok two_pages
  /\ PyPDF2.pages two_pages
     = Ok [ {| PyPDF2.extract_text := Ok (lit "Ana: hello") |};
            unreadable_page ]
  /\ In unreadable_page
       [ {| PyPDF2.extract_text := Ok (lit "Ana: hello") |}; unreadable_page ]
  /\ PyPDF2.extract_text unreadable_page
     = Raise (Exception "KeyError" (lit "'/Contents'"))
  /\ extract_text_from_pdf reads_files [] = Ok [].
Proof.
  assert (Hin : In unreadable_page
                  [ {| PyPDF2.extract_text := Ok (lit "Ana: hello") |};
                    unreadable_page ]) by (right; left; reflexivity).
  split; [reflexivity|]. split; [reflexivity|]. split; [exact Hin|].
  split; [reflexivity|].
  exact (pdf_page_failure_discards_all reads_files [] two_pages _
           unreadable_page _ eq_refl eq_refl Hin eq_refl).
Defined.

Lemma unreadable_upload_with_pasted_text :
  upload_type a_pdf = lit "application/pdf"
  /\ PdfReader offline (upload_bytes a_pdf)
     = Raise (Exception "PdfReadError" (lit "EOF marker not found"))
  /\ (read_transcript offline decode_ascii (Some a_pdf) (lit "Ana: hello")
      = Ok ([ st_spinner (lit "Reading " ++ upload_name a_pdf ++ lit "...");
              st_warning
                ([0x26A0%N; 0xFE0F%N]
                 ++ lit " Could not extract text from the uploaded file.") ],
            [])
      /\ button_disabled [] = true).
Proof.
  split; [reflexivity|]. split; [reflexivity|].
  exact (unreadable_pdf_blanks_transcript offline decode_ascii a_pdf
           (lit "Ana: hello") _ eq_refl eq_refl).
Defined.

Lemma offline_failure_is_shown :
  model (self configured) = Some flash
  /\ call_fails plain_builtins offline flash (lit "Ana: hello") unreachable
  /\ fst (on_generate plain_builtins offline (lit "Ana: hello")
            (Some q3_record) configured)
     = Ok ([ st_spinner
               ([0x1F9E0%N]
                ++ lit " Gemini is thinking... This may take a moment.");
             st_error
               ([0x1F534%N] ++ lit " Failed to generate minutes. Error: "
                ++ lit "API call failed: " ++ exn_str unreachable
                ++ diagnostic_suffix
                     (response_of
                        (generate_content offline flash
                           (full_prompt (lit "Ana: hello"))))) ],
           Some q3_record).
Proof.
  assert (Hf : call_fails plain_builtins offline flash (lit "Ana: hello")
                 unreachable) by (apply call_raises; reflexivity).
  split; [reflexivity|]. split; [exact Hf|].
  exact (on_generate_reports_failed_call plain_builtins offline
           (lit "Ana: hello") (Some q3_record) configured flash unreachable
           eq_refl Hf).
Defined.

Lemma quoting_summary_shows_stale_error :
  model (self failed_before) = Some flash
  /\ attempt_outcome plain_builtins (answers quoting_body quoting_object) flash
       (lit "Ana: hello") = Ok quoting_record
  /\ generation_failed quoting_record = true
  /\ on_generate plain_builtins (answers quoting_body quoting_object)
       (lit "Ana: hello") (Some q3_record) failed_before
     = (Ok ([ st_spinner
                ([0x1F9E0%N]
                 ++ lit " Gemini is thinking... This may take a moment.");
              st_error
                ([0x1F534%N] ++ lit " Failed to generate minutes. Error: "
                 ++ lit "API call failed: timed out") ],
            Some q3_record),
        sent failed_before (full_prompt (lit "Ana: hello"))).
Proof.
  assert (Ho : attempt_outcome plain_builtins
                 (answers quoting_body quoting_object) flash
                 (lit "Ana: hello") = Ok quoting_record)
    by (vm_compute; reflexivity).
  split; [reflexivity|]. split; [exact Ho|]. split; [reflexivity|].
  exact (on_generate_false_alarm plain_builtins
           (answers quoting_body quoting_object) (lit "Ana: hello")
           (Some q3_record) failed_before flash quoting_record
           eq_refl Ho eq_refl).
Defined.

Lemma environment_key_is_used :
  getenv refuses_key (lit "GOOGLE_API_KEY") = Some (lit "key")
  /\ __init__ refuses_key None configured
     = __init__ refuses_key (Some (lit "key")) configured.
Proof.
  split; [reflexivity|].
  exact (proj1 (proj2 (init_key_resolution refuses_key configured))
           (lit "key") eq_refl).
Defined.

Lemma q3_export_starts_with_summary :
  summary q3_record <> []
  /\ startswith
       (lit "## " ++ [0x2728%N] ++ lit " Summary" ++ [10%N] ++ summary q3_record)
       (format_minutes_as_markdown q3_record) = true.
Proof.
  assert (H : summary q3_record <> []) by discriminate.
  split; [exact H|].
  exact (proj2 (markdown_empty_or_summary_first q3_record) H).
Defined.
